(** * IncluScore: the what-if simulator and the risk/need matrix

    A shallow embedding of the client-side scoring logic of the IncluScore
    front end:

    - [ScoreSimulator.js]: [convertEmploymentType], [prepareDataForBackend],
      [handleSimulate], [simulateScoreLocally], [handleParameterChange],
      [resetSimulation] and [getImprovementSuggestions];
    - [api.js]: the axios response interceptor and [simulateScore];
    - [RiskMatrix.js]: [parseRiskCategory], [matrixCategories],
      [currentCategory] and [getRecommendation].

    JavaScript numbers are modelled by exact rationals ([Q]): every number the
    embedded code computes with is a finite decimal, and the only operations
    are [+], [-], [*], [/] by a non-zero constant, comparisons, [Math.min],
    [Math.max], [Math.abs] and [Math.round].  [NaN] only arises when a
    non-numeric string is compared with a number; it is modelled by [None] at
    the one place where that can happen. *)

From Stdlib Require Import String Ascii List Bool ZArith QArith Qround Qminmax Qabs.
From Stdlib Require Import Lia Lqa DecimalString Permutation.
From ExtLib Require Import Structures.Monad Structures.MonadState.
From ExtLib Require Import Data.Monads.StateMonad.
Import ListNotations.

Local Open Scope string_scope.

(** ** JavaScript values and the built-ins the program uses *)

Module Js.

(** The values a field of a JSON-decoded record can hold, plus the members
    every object literal inherits from [Object.prototype] (functions and the
    prototype object itself), which a computed property read can return. *)
Inductive value : Type :=
| Undefined
| Null
| Bool (b : bool)
| Num (q : Q)
| Str (s : string)
| Inherited (name : string).

(** [typeof v === 'number'] *)
Definition is_number (v : value) : bool :=
  match v with Num _ => true | _ => false end.

(** ToBoolean: what [v || d], [v ? a : b] and [!v] test. *)
Definition truthy (v : value) : bool :=
  match v with
  | Undefined | Null => false
  | Bool b => b
  | Num q => negb (Qeq_bool q 0)
  | Str s => negb (s =? "")
  | Inherited _ => true
  end.

(** [a || b] *)
Definition or_else (a b : value) : value := if truthy a then a else b.

(** [a ?? b] *)
Definition nullish (a b : value) : value :=
  match a with Undefined | Null => b | _ => a end.

(** [a || b] and [a ?? b] on a numeric field that is either absent
    ([None]: [undefined] or [null]) or a number. *)
Definition num_or (a : option Q) (b : Q) : Q :=
  match a with
  | Some q => if Qeq_bool q 0 then b else q
  | None => b
  end.

Definition num_nullish (a : option Q) (b : Q) : Q :=
  match a with Some q => q | None => b end.

(** [String.prototype.includes] *)
Fixpoint includes (needle hay : string) : bool :=
  if String.prefix needle hay then true
  else match hay with
       | EmptyString => false
       | String _ rest => includes needle rest
       end.

(** [String.prototype.split] with a non-empty separator.  [skip] counts the
    characters of a separator occurrence still to be dropped, [piece] is the
    part read so far. *)
Fixpoint split_from (sep : string) (skip : nat) (piece s : string) : list string :=
  match s with
  | EmptyString => [piece]
  | String c rest =>
      match skip with
      | S k => split_from sep k piece rest
      | O =>
          if String.prefix sep s
          then piece :: split_from sep (String.length sep - 1) "" rest
          else split_from sep 0 (piece ++ String c "") rest
      end
  end.

Definition split (sep s : string) : list string := split_from sep 0 "" s.

(** [Math.round]: the nearest integer, halves going up. *)
Definition round (x : Q) : Z := Qfloor (x + (1 # 2)).

(** [Math.min], [Math.max] and [Math.abs] are [Qmin], [Qmax] and [Qabs]. *)

(** Template-literal printing of an integer-valued number. *)
Definition show_int (z : Z) : string := NilZero.string_of_int (Z.to_int z).

Definition is_digit (c : ascii) : bool :=
  let n := nat_of_ascii c in (48 <=? n)%nat && (n <=? 57)%nat.

Fixpoint all_digits (s : string) : bool :=
  match s with
  | EmptyString => true
  | String c rest => is_digit c && all_digits rest
  end.

Fixpoint digits_value (acc : Z) (s : string) : Z :=
  match s with
  | EmptyString => acc
  | String c rest => digits_value (10 * acc + Z.of_nat (nat_of_ascii c - 48)) rest
  end.

(** ToNumber, [None] standing for [NaN].  On strings the empty string is
    [0], an unsigned decimal integer literal is its value and anything else
    is [NaN]; the labels the application uses are alphabetic.  (Signed,
    fractional and padded numeric strings are not modelled.) *)
Definition to_number (v : value) : option Q :=
  match v with
  | Undefined => None
  | Null => Some 0
  | Bool b => Some (if b then 1 else 0)
  | Num q => Some q
  | Str s => if all_digits s then Some (inject_Z (digits_value 0 s)) else None
  | Inherited _ => None
  end.

(** [a > b] and [a < b] for a number [a] and an operand that may be [NaN]:
    every comparison with [NaN] is false. *)
Definition gt (a : Q) (b : option Q) : bool :=
  match b with Some q => negb (Qle_bool a q) | None => false end.

Definition lt (a : Q) (b : option Q) : bool :=
  match b with Some q => negb (Qle_bool q a) | None => false end.

(** The property names an object literal inherits from [Object.prototype]. *)
Definition object_prototype_names : list string :=
  [ "constructor"; "__defineGetter__"; "__defineSetter__"; "hasOwnProperty";
    "__lookupGetter__"; "__lookupSetter__"; "isPrototypeOf";
    "propertyIsEnumerable"; "toString"; "valueOf"; "__proto__";
    "toLocaleString" ].

Definition mem (s : string) (l : list string) : bool :=
  existsb (String.eqb s) l.

(** ToPropertyKey then ToString, for the computed read [obj[v]].  Numbers
    never reach it in this program. *)
Definition property_key (v : value) : string :=
  match v with
  | Undefined => "undefined"
  | Null => "null"
  | Bool true => "true"
  | Bool false => "false"
  | Num q => show_int (Qfloor q)
  | Str s => s
  | Inherited "__proto__" => "[object Object]"
  | Inherited name => "function " ++ name ++ "() { [native code] }"
  end.

(** [obj[key]] on an object literal given by its own properties: an own
    property first, then the prototype chain. *)
Fixpoint own (props : list (string * value)) (key : string) : option value :=
  match props with
  | [] => None
  | (k, v) :: rest => if k =? key then Some v else own rest key
  end.

Definition get (props : list (string * value)) (key : string) : value :=
  match own props key with
  | Some v => v
  | None => if mem key object_prototype_names then Inherited key else Undefined
  end.

End Js.

(** ** The records exchanged with the scoring backend *)

Module Data.

(** [currentData]: a beneficiary record as decoded from JSON.  A numeric
    field is a number or absent ([None]: [undefined] or [null]);
    [employment_type] may also be a textual label and [is_high_need] is only
    ever tested for truthiness. *)
Record Beneficiary : Type := {
  loan_repayment_status : option Q;
  loan_tenure_months : option Q;
  electricity_bill_paid_on_time : option Q;
  mobile_recharge_frequency : option Q;
  is_high_need : Js.value;
  age : option Q;
  monthly_income : option Q;
  employment_type : Js.value
}.

(** The object [prepareDataForBackend] builds for the model. *)
Record FeatureVector : Type := {
  fv_loan_repayment_status : Q;
  fv_loan_tenure_months : Q;
  fv_electricity_bill_paid_on_time : Q;
  fv_mobile_recharge_frequency : Q;
  fv_is_high_need : Q;
  fv_age : Q;
  fv_monthly_income : Q;
  fv_employment_type : Js.value
}.

(** The body of [POST /simulate]. *)
Record SimulateRequest : Type := {
  current_data : FeatureVector;
  hypothetical_changes : list (string * Js.value)
}.

(** [response.data] of [POST /simulate]. *)
Record SimulationResult : Type := {
  projected_score : Q;
  score_change : Q;
  explanation : string
}.

(** How an axios request can fail: the server answered with an error status
    ([error.response], with [data.detail] when present), the request was
    sent and nothing came back ([error.request]), or the request could not
    be set up. *)
Inductive AxiosError : Type :=
| HttpError (status : Z) (detail : option string)
| NoResponse
| SetupError (message : string).

(** What the network does with one request. *)
Inductive Outcome : Type :=
| Responded (status : Z) (data : SimulationResult)
| Failed (e : AxiosError).

Inductive Level : Type := Log | Warn | Error.

Inductive Arg : Type :=
| Text (s : string)
| Request (body : SimulateRequest)
| Result (r : SimulationResult)
| Failure (e : AxiosError).

(** The effects visible outside the component: console output and requests
    sent. *)
Inductive Event : Type :=
| Console (level : Level) (args : list Arg)
| Post (url : string) (body : SimulateRequest).

(** One point of the score-journey chart. *)
Record ChartPoint : Type := {
  month : string;
  score : option Q;
  label : string
}.

(** The React state of the simulator component. *)
Record SimState : Type := {
  hypotheticalChanges : list (string * Q);
  projectedScore : option Q;
  scoreChange : Q;
  explanationText : string;
  loading : bool;
  error : option string;
  chartData : list ChartPoint
}.

Record World : Type := {
  ui : SimState;
  trace : list Event
}.

(** [useState] initial values. *)
Definition initial : SimState :=
  {| hypotheticalChanges := [];
     projectedScore := None;
     scoreChange := 0;
     explanationText := "";
     loading := false;
     error := None;
     chartData := [] |}.

End Data.

(** ** Effects: state setters and the console *)

Module Eff.
Import Data MonadNotation.
Local Open Scope monad_scope.

Definition M : Type -> Type := state World.

Definition update (f : SimState -> SimState) : M unit :=
  modify (fun w => {| ui := f (ui w); trace := trace w |}) ;; ret tt.

Definition emit (e : Event) : M unit :=
  modify (fun w => {| ui := ui w; trace := trace w ++ [e] |}) ;; ret tt.

Definition console (l : Level) (args : list Arg) : M unit :=
  emit (Console l args).

Definition setProjectedScore (v : option Q) : M unit :=
  update (fun s =>
    {| hypotheticalChanges := hypotheticalChanges s; projectedScore := v;
       scoreChange := scoreChange s; explanationText := explanationText s;
       loading := loading s; error := error s; chartData := chartData s |}).

Definition setScoreChange (v : Q) : M unit :=
  update (fun s =>
    {| hypotheticalChanges := hypotheticalChanges s;
       projectedScore := projectedScore s;
       scoreChange := v; explanationText := explanationText s;
       loading := loading s; error := error s; chartData := chartData s |}).

Definition setExplanation (v : string) : M unit :=
  update (fun s =>
    {| hypotheticalChanges := hypotheticalChanges s;
       projectedScore := projectedScore s;
       scoreChange := scoreChange s; explanationText := v;
       loading := loading s; error := error s; chartData := chartData s |}).

Definition setLoading (v : bool) : M unit :=
  update (fun s =>
    {| hypotheticalChanges := hypotheticalChanges s;
       projectedScore := projectedScore s;
       scoreChange := scoreChange s; explanationText := explanationText s;
       loading := v; error := error s; chartData := chartData s |}).

Definition setError (v : option string) : M unit :=
  update (fun s =>
    {| hypotheticalChanges := hypotheticalChanges s;
       projectedScore := projectedScore s;
       scoreChange := scoreChange s; explanationText := explanationText s;
       loading := loading s; error := v; chartData := chartData s |}).

Definition setChartData (v : list ChartPoint) : M unit :=
  update (fun s =>
    {| hypotheticalChanges := hypotheticalChanges s;
       projectedScore := projectedScore s;
       scoreChange := scoreChange s; explanationText := explanationText s;
       loading := loading s; error := error s; chartData := v |}).

Definition setHypotheticalChanges
    (f : list (string * Q) -> list (string * Q)) : M unit :=
  update (fun s =>
    {| hypotheticalChanges := f (hypotheticalChanges s);
       projectedScore := projectedScore s;
       scoreChange := scoreChange s; explanationText := explanationText s;
       loading := loading s; error := error s; chartData := chartData s |}).

(** Run a handler on a state with an empty trace. *)
Definition run {A} (m : M A) (s : SimState) : World :=
  snd (runState m {| ui := s; trace := [] |}).

End Eff.

(** ** api.js *)

Module Api.
Import Data Eff MonadNotation.
Local Open Scope monad_scope.

(** The message of the [Error] the response interceptor throws. *)
Definition interceptor_message (e : AxiosError) : string :=
  match e with
  | HttpError status detail =>
      let message :=
        match detail with
        | Some d => if d =? "" then "Server error occurred" else d
        | None => "Server error occurred"
        end in
      Js.show_int status ++ ": " ++ message
  | NoResponse => "No response from server. Please check your connection."
  | SetupError message => "Request error: " ++ message
  end.

(** The message of the [Error] that [simulateScore] throws in its turn. *)
Definition failure_message (e : AxiosError) : string :=
  "Failed to simulate score: " ++ interceptor_message e.

(** Did the request leave the browser?  Not when it could not be set up. *)
Definition dispatched (net : Outcome) : bool :=
  match net with
  | Failed (SetupError _) => false
  | _ => true
  end.

(** [simulateScore]: either the response data or the message of the error
    it throws.  The interceptors log the request and the response; the
    request goes out unless setting it up fails. *)
Definition simulateScore (net : Outcome) (currentData : FeatureVector)
    (hypotheticalChanges : list (string * Js.value))
    : M (string + SimulationResult) :=
  let body := {| current_data := currentData;
                 hypothetical_changes := hypotheticalChanges |} in
  console Log [Text "API Request: POST /simulate"] ;;
  (if dispatched net then emit (Post "/simulate" body) else ret tt) ;;
  match net with
  | Responded status data =>
      console Log [Text ("API Response: " ++ Js.show_int status ++ " /simulate")] ;;
      ret (inr data)
  | Failed e =>
      console Error [Text "API Response Error:"; Failure e] ;;
      ret (inl (failure_message e))
  end.

End Api.

(** ** ScoreSimulator.js *)

Module ScoreSimulator.
Import Data Eff MonadNotation.
Local Open Scope monad_scope.
Local Open Scope Q_scope.

(** The lookup table of [convertEmploymentType]. *)
Definition mapping : list (string * Js.value) :=
  [ ("unemployed", Js.Num 0); ("self_employed", Js.Num 1);
    ("salaried", Js.Num 2); ("business_owner", Js.Num 3) ].

(** [convertEmploymentType]: a number is returned as it is, anything else is
    looked up in [mapping], a falsy result becoming [0]. *)
Definition convertEmploymentType (empType : Js.value) : Js.value :=
  if Js.is_number empType then empType
  else Js.or_else (Js.get mapping (Js.property_key empType)) (Js.Num 0).

(** [prepareDataForBackend] *)
Definition prepareDataForBackend (data : Beneficiary) : FeatureVector :=
  {| fv_loan_repayment_status := Js.num_nullish (loan_repayment_status data) 0;
     fv_loan_tenure_months := Js.num_nullish (loan_tenure_months data) 12;
     fv_electricity_bill_paid_on_time :=
       Js.num_nullish (electricity_bill_paid_on_time data) 0;
     fv_mobile_recharge_frequency :=
       Js.num_nullish (mobile_recharge_frequency data) 1;
     fv_is_high_need := if Js.truthy (is_high_need data) then 1 else 0;
     fv_age := Js.num_nullish (age data) 30;
     fv_monthly_income := Js.num_nullish (monthly_income data) 0;
     fv_employment_type := convertEmploymentType (employment_type data) |}.

(** The result object of [simulateScoreLocally]; both numbers went through
    [Math.round]. *)
Record LocalResult : Type := {
  local_projected_score : Z;
  local_score_change : Z;
  local_explanation : string
}.

Definition Qgtb (a b : Q) : bool := negb (Qle_bool a b).
Definition Qltb (a b : Q) : bool := negb (Qle_bool b a).

(** One iteration of the [forEach] over [Object.entries(changes)]: the
    [switch] on the key, updating [scoreAdjustment]. *)
Definition adjust (current : Beneficiary) (scoreAdjustment : Q)
    (entry : string * Q) : Q :=
  let (key, value) := entry in
  if key =? "monthly_income" then
    let incomeChange := (value - Js.num_or (monthly_income current) 0) / 1000 in
    scoreAdjustment + Qmin (incomeChange * 2) 50
  else if key =? "employment_type" then
    let old := Js.to_number (Js.or_else (employment_type current) (Js.Num 0)) in
    let a := if Js.gt value old then scoreAdjustment + 25 else scoreAdjustment in
    if Js.lt value old then a - 15 else a
  else if key =? "loan_repayment_status" then
    let old := Js.num_or (loan_repayment_status current) 0 in
    let a := if Qgtb value old then scoreAdjustment + 40 else scoreAdjustment in
    if Qltb value old then a - 40 else a
  else if key =? "electricity_bill_paid_on_time" then
    let old := Js.num_or (electricity_bill_paid_on_time current) 0 in
    let a := if Qgtb value old then scoreAdjustment + 30 else scoreAdjustment in
    if Qltb value old then a - 30 else a
  else if key =? "mobile_recharge_frequency" then
    let old := Js.num_or (mobile_recharge_frequency current) 0 in
    let a := if Qgtb value old then scoreAdjustment + 15 else scoreAdjustment in
    if Qltb value old then a - 10 else a
  else if key =? "loan_tenure_months" then
    let tenureChange := value - Js.num_or (loan_tenure_months current) 12 in
    let a := if Qltb tenureChange 0 then scoreAdjustment + 10 else scoreAdjustment in
    if Qgtb tenureChange 0 then a - 5 else a
  else scoreAdjustment.

(** [scoreAdjustment] after the loop. *)
Definition scoreAdjustmentOf (current : Beneficiary) (changes : list (string * Q)) : Q :=
  fold_left (adjust current) changes 0.

(** [baseScore = currentScore || 650] *)
Definition baseScoreOf (currentScore : option Q) : Q := Js.num_or currentScore 650.

Definition explain (scoreAdjustment : Q) : string :=
  let explanation := "Local simulation based on your changes: " in
  let explanation :=
    if Qgtb scoreAdjustment 0 then
      explanation ++ "These improvements could increase your score by approximately "
        ++ Js.show_int (Js.round scoreAdjustment) ++ " points. "
    else if Qltb scoreAdjustment 0 then
      explanation ++ "These changes might decrease your score by approximately "
        ++ Js.show_int (Js.round (Qabs scoreAdjustment)) ++ " points. "
    else
      explanation ++ "These changes would have minimal impact on your current score. " in
  explanation ++ "This is a simplified calculation. For more accurate projections, ensure the backend server is running.".

(** [simulateScoreLocally]; [currentScore] is the component's prop. *)
Definition simulateScoreLocally (currentScore : option Q) (current : Beneficiary)
    (changes : list (string * Q)) : LocalResult :=
  let baseScore := baseScoreOf currentScore in
  let scoreAdjustment := scoreAdjustmentOf current changes in
  let projectedScore := Qmax 300 (Qmin 850 (baseScore + scoreAdjustment)) in
  {| local_projected_score := Js.round projectedScore;
     local_score_change := Js.round scoreAdjustment;
     local_explanation := explain scoreAdjustment |}.

(** The prefix [handleSimulate] puts before a locally computed explanation. *)
Definition fallback_marker : string :=
  "⚠️ Using simplified calculation (backend unavailable): ".

Definition no_changes_message : string :=
  "Please make at least one change to simulate".

Definition not_responding_message : string :=
  "Backend server not responding. Please ensure the backend server is running on http://localhost:8000".

Definition chartOf (currentScore : option Q) (projected : Q) : list ChartPoint :=
  [ {| month := "Current"; score := currentScore; label := "Current Score" |};
    {| month := "Projected"; score := Some projected; label := "Projected Score" |} ].

(** The test of the [catch] block: is the failure a connection issue? *)
Definition isConnectionIssue (message : string) : bool :=
  Js.includes "No response from server" message
  || Js.includes "Network Error" message.

(** The [forEach] that fills [preparedChanges].  The object is an
    association list in the order of [Object.keys]; the model holds for
    change sets whose keys are pairwise different and are neither
    ["__proto__"] (an assignment to it sets the prototype, not a property)
    nor integer-like (which JavaScript enumerates first): the keys the form
    produces are parameter names. *)
Definition prepareChanges (changes : list (string * Q)) : list (string * Js.value) :=
  map (fun kv : string * Q =>
         let (key, v) := kv in
         if key =? "employment_type"
         then (key, convertEmploymentType (Js.Num v))
         else (key, Js.Num v))
      changes.

(** [handleSimulate].  [net] is what the network does with the request, if
    one is sent. *)
Definition handleSimulate (currentData : option Beneficiary)
    (currentScore : option Q) (net : Outcome) : M unit :=
  w <- get ;;
  let changes := hypotheticalChanges (ui w) in
  match currentData, changes with
  | None, _ | _, [] => setError (Some no_changes_message)
  | Some data, _ :: _ =>
      setLoading true ;;
      setError None ;;
      let preparedCurrentData := prepareDataForBackend data in
      let preparedChanges := prepareChanges changes in
      console Log [Text "Sending to backend:";
                   Request {| current_data := preparedCurrentData;
                              hypothetical_changes := preparedChanges |}] ;;
      r <- Api.simulateScore net preparedCurrentData preparedChanges ;;
      match r with
      | inr result =>
          console Log [Text "Backend simulation result:"; Result result] ;;
          setProjectedScore (Some (projected_score result)) ;;
          setScoreChange (score_change result) ;;
          setExplanation (explanation result) ;;
          setChartData (chartOf currentScore (projected_score result))
      | inl message =>
          console Error [Text "Backend simulation failed:"; Text message] ;;
          if isConnectionIssue message
          then setError (Some not_responding_message)
          else
            console Warn [Text "Using local fallback calculation"] ;;
            let localResult := simulateScoreLocally currentScore data changes in
            setProjectedScore (Some (inject_Z (local_projected_score localResult))) ;;
            setScoreChange (inject_Z (local_score_change localResult)) ;;
            setExplanation (fallback_marker ++ local_explanation localResult) ;;
            setChartData
              (chartOf currentScore (inject_Z (local_projected_score localResult)))
      end ;;
      setLoading false
  end.

(** [{...prev, [parameter]: typedValue}]: an existing key keeps its place and
    takes the new value, a new key goes last.  This is the insertion order
    JavaScript keeps for keys that are not integer-like, as the parameter
    names of the form are. *)
Fixpoint set_key (key : string) (v : Q) (obj : list (string * Q)) : list (string * Q) :=
  match obj with
  | [] => [(key, v)]
  | (k, old) :: rest =>
      if k =? key then (k, v) :: rest else (k, old) :: set_key key v rest
  end.

(** [handleParameterChange].  The controls of the form send integers, on
    which [parseInt(value, 10)] is the identity. *)
Definition handleParameterChange (parameter : string) (value : Z) : M unit :=
  let typedValue := value in
  if (parameter =? "mobile_recharge_frequency")
     && ((typedValue <? 1)%Z || (4 <? typedValue)%Z)
  then setError (Some "Mobile recharge frequency must be between 1 and 4")
  else if (parameter =? "monthly_income") && (typedValue <? 0)%Z
  then setError (Some "Monthly income must be positive")
  else if (parameter =? "age") && ((typedValue <? 18)%Z || (65 <? typedValue)%Z)
  then setError (Some "Age must be between 18 and 65")
  else
    setError None ;;
    setHypotheticalChanges (set_key parameter (inject_Z typedValue)).

(** [resetSimulation] *)
Definition resetSimulation : M unit :=
  setHypotheticalChanges (fun _ => []) ;;
  setProjectedScore None ;;
  setScoreChange 0 ;;
  setExplanation "" ;;
  setError None ;;
  setChartData [].

(** A click on "Simulate" in state [s]: the final state and the trace. *)
Definition simulate (s : SimState) (currentData : option Beneficiary)
    (currentScore : option Q) (net : Outcome) : World :=
  run (handleSimulate currentData currentScore net) s.

(** One improvement suggestion. *)
Record Suggestion : Type := {
  parameter : string;
  value : Q;
  title : string;
  description : string;
  impact : string
}.

Definition suggestLoan : Suggestion :=
  {| parameter := "loan_repayment_status"; value := 1;
     title := "Improve Loan Repayment";
     description := "Make all future loan payments on time";
     impact := "High" |}.

Definition suggestBills : Suggestion :=
  {| parameter := "electricity_bill_paid_on_time"; value := 1;
     title := "Pay Utility Bills On Time";
     description := "Set up automatic bill payments";
     impact := "Medium" |}.

Definition suggestRecharge : Suggestion :=
  {| parameter := "mobile_recharge_frequency"; value := 4;
     title := "Increase Mobile Recharge Frequency";
     description := "Recharge more regularly to show stable income";
     impact := "Low" |}.

Definition suggestEmployment : Suggestion :=
  {| parameter := "employment_type"; value := 2;
     title := "Secure Stable Employment";
     description := "Find salaried employment for better creditworthiness";
     impact := "High" |}.

(** [x === 0] for the value of [currentData.employment_type ?? 0]. *)
Definition strictly_zero (v : Js.value) : bool :=
  match v with Js.Num q => Qeq_bool q 0 | _ => false end.

(** The pushes of [getImprovementSuggestions], before the [slice]. *)
Definition applicableSuggestions (data : Beneficiary) : list Suggestion :=
  let loanRepaymentStatus := Js.num_nullish (loan_repayment_status data) 0 in
  let electricityBillStatus := Js.num_nullish (electricity_bill_paid_on_time data) 0 in
  let mobileRechargeFreq := Js.num_nullish (mobile_recharge_frequency data) 1 in
  let employmentType := Js.nullish (employment_type data) (Js.Num 0) in
  (if Qeq_bool loanRepaymentStatus 0 then [suggestLoan] else [])
  ++ (if Qeq_bool electricityBillStatus 0 then [suggestBills] else [])
  ++ (if Qltb mobileRechargeFreq 3 then [suggestRecharge] else [])
  ++ (if strictly_zero employmentType then [suggestEmployment] else []).

(** [getImprovementSuggestions] *)
Definition getImprovementSuggestions (currentData : option Beneficiary)
    : list Suggestion :=
  match currentData with
  | None => []
  | Some data => firstn 3 (applicableSuggestions data)
  end.

End ScoreSimulator.

(** ** RiskMatrix.js *)

Module RiskMatrix.
Local Open Scope Q_scope.

(** A cell of the risk/need matrix. *)
Record Category : Type := {
  id : string;
  risk : string;
  need : string;
  color : string;
  label : string;
  description : string;
  recommendation : string
}.

(** [parts[i] || 'Unknown'] *)
Definition part_or_unknown (parts : list string) (i : nat) : string :=
  match nth_error parts i with
  | Some p => if p =? "" then "Unknown" else p
  | None => "Unknown"
  end.

(** [parseRiskCategory]: the risk and the need of a string such as
    ["Low Risk - High Need"]; [None] is an absent prop. *)
Definition parseRiskCategory (category : option string) : string * string :=
  match category with
  | None => ("Unknown", "Unknown")
  | Some c =>
      if c =? "" then ("Unknown", "Unknown")
      else
        let parts := Js.split " - " c in
        (part_or_unknown parts 0, part_or_unknown parts 1)
  end.

Definition matrixCategories : list Category :=
  [ {| id := "low-risk-low-need"; risk := "Low Risk"; need := "Low Need";
       color := "#4caf50"; label := "Stable";
       description := "Low risk, financially stable";
       recommendation := "Maintain current financial habits" |};
    {| id := "low-risk-high-need"; risk := "Low Risk"; need := "High Need";
       color := "#2196f3"; label := "Prime Candidate";
       description := "Low risk, high need for credit";
       recommendation := "Ideal for loan approval" |};
    {| id := "medium-risk-low-need"; risk := "Medium Risk"; need := "Low Need";
       color := "#ff9800"; label := "Monitor";
       description := "Moderate risk, low need";
       recommendation := "Monitor financial behavior" |};
    {| id := "high-risk-low-need"; risk := "High Risk"; need := "Low Need";
       color := "#ff9800"; label := "Monitor";
       description := "High risk, low need";
       recommendation := "Monitor financial behavior" |};
    {| id := "medium-risk-high-need"; risk := "Medium Risk"; need := "High Need";
       color := "#ff5722"; label := "Caution";
       description := "Moderate risk, high need";
       recommendation := "Conditional approval with guidance" |};
    {| id := "high-risk-high-need"; risk := "High Risk"; need := "High Need";
       color := "#f44336"; label := "High Risk";
       description := "High risk, high need";
       recommendation := "Requires financial guidance" |} ].

(** [currentCategory]: the cell of the parsed pair, else the "Medium" cell of
    the parsed need, else nothing. *)
Definition currentCategory (riskCategory : option string) : option Category :=
  let (r, n) := parseRiskCategory riskCategory in
  match find (fun cat => (risk cat =? r) && (need cat =? n)) matrixCategories with
  | Some cat => Some cat
  | None =>
      find (fun cat => Js.includes "Medium" (risk cat) && (need cat =? n))
           matrixCategories
  end.

(** [isCellActive] *)
Definition isCellActive (riskCategory : option string) (cellRisk cellNeed : string)
    : bool :=
  let (r, n) := parseRiskCategory riskCategory in
  (cellRisk =? r) && (cellNeed =? n).

(** [score >= k], false when the prop is absent. *)
Definition score_at_least (score : option Q) (k : Q) : bool :=
  match score with Some s => Qle_bool k s | None => false end.

(** [getRecommendation] *)
Definition getRecommendation (riskCategory : option string) (score : option Q)
    : string :=
  match currentCategory riskCategory with
  | Some cat => recommendation cat
  | None =>
      if score_at_least score 700 then
        "Excellent creditworthiness - approve loans confidently"
      else if score_at_least score 550 then
        "Good candidate - consider with standard terms"
      else
        "Requires improvement - provide financial guidance"
  end.

(** The values of the two axes. *)
Definition risk_levels : list string := ["Low Risk"; "Medium Risk"; "High Risk"].
Definition need_levels : list string := ["Low Need"; "High Need"].

(** The string the backend sends for a pair. *)
Definition category_string (r n : string) : string := r ++ " - " ++ n.

End RiskMatrix.

(** ** What a caller of the component can observe, and sample inputs *)

Module Observe.
Import Data.
Local Open Scope Q_scope.

(** The field holds [0] or is absent, which both [|| 0] and [?? 0] read as
    [0]. *)
Definition reads_as_zero (f : option Q) : Prop :=
  match f with
  | None => True
  | Some q => q == 0
  end.

Definition is_warning (e : Event) : bool :=
  match e with
  | Console Warn _ => true
  | _ => false
  end.

(** The [console.warn] calls of a run. *)
Definition warnings (w : World) : list Event := filter is_warning (trace w).

(** The bodies of the requests sent in a run. *)
Definition requests (w : World) : list SimulateRequest :=
  flat_map (fun e => match e with Post _ body => [body] | _ => [] end) (trace w).

(** The events up to the answer of the network. *)
Definition sent (data : Beneficiary) (changes : list (string * Q)) : list Event :=
  let body := {| current_data := ScoreSimulator.prepareDataForBackend data;
                 hypothetical_changes := ScoreSimulator.prepareChanges changes |} in
  [ Console Log [Text "Sending to backend:"; Request body];
    Console Log [Text "API Request: POST /simulate"];
    Post "/simulate" body ].

(** The events up to the failure of a request: as [sent], without the request
    itself when it could not be set up. *)
Definition tried (e : AxiosError) (data : Beneficiary) (changes : list (string * Q))
    : list Event :=
  let body := {| current_data := ScoreSimulator.prepareDataForBackend data;
                 hypothetical_changes := ScoreSimulator.prepareChanges changes |} in
  [ Console Log [Text "Sending to backend:"; Request body];
    Console Log [Text "API Request: POST /simulate"] ]
  ++ (if Api.dispatched (Failed e) then [Post "/simulate" body] else []).

(** Is anything reported to the user or warned about on the console? *)
Definition surfaced (w : World) : bool :=
  match error (ui w), warnings w with
  | None, [] => false
  | _, _ => true
  end.

(** The rank of the impact label of a suggestion, for comparing suggestions. *)
Definition impact_rank (label : string) : nat :=
  if label =? "High" then 3
  else if label =? "Medium" then 2
  else if label =? "Low" then 1
  else 0.

End Observe.

Module Samples.
Import Data.
Local Open Scope Q_scope.

(** A beneficiary with every behavioural field at its worst value. *)
Definition struggling : Beneficiary :=
  {| loan_repayment_status := Some 0;
     loan_tenure_months := Some 12;
     electricity_bill_paid_on_time := Some 0;
     mobile_recharge_frequency := Some 1;
     is_high_need := Js.Bool true;
     age := Some 30;
     monthly_income := Some 5000;
     employment_type := Js.Num 0 |}.

(** The same person, the employment type given as a label the table does
    not have. *)
Definition freelancer : Beneficiary :=
  {| loan_repayment_status := Some 0;
     loan_tenure_months := Some 12;
     electricity_bill_paid_on_time := Some 0;
     mobile_recharge_frequency := Some 1;
     is_high_need := Js.Bool true;
     age := Some 30;
     monthly_income := Some 5000;
     employment_type := Js.Str "freelancer" |}.

(** The component after the user picked "On-Time Payments". *)
Definition repaying : SimState :=
  {| hypotheticalChanges := [("loan_repayment_status", 1)];
     projectedScore := None;
     scoreChange := 0;
     explanationText := "";
     loading := false;
     error := None;
     chartData := [] |}.

(** A backend that is up but has no model to score with. *)
Definition model_down : AxiosError := HttpError 503 (Some "Model not loaded").

(** An answer of a working backend. *)
Definition answer : SimulationResult :=
  {| projected_score := 702; score_change := 52;
     explanation := "Improved repayment behaviour raises the score." |}.

End Samples.

(** ** ScoreSimulator.js: applying a suggestion, and the shape of the heuristic *)

Module SimulatorParts.
Import Data Eff ScoreSimulator MonadNotation.
Local Open Scope monad_scope.
Local Open Scope Q_scope.

(** [parseInt(value, 10)] on a number that prints in plain decimal notation
    (zero, or of magnitude between [1e-6] and [1e21]): the digits before the
    decimal point, that is, truncation towards zero. *)
Definition parseInt (q : Q) : Z :=
  if Qle_bool 0 q then Qfloor q else Qceiling q.

(** [applySuggestion]: a click on a suggestion card. *)
Definition applySuggestion (suggestion : Suggestion) : M unit :=
  handleParameterChange (parameter suggestion) (parseInt (value suggestion)).

(** What one entry of the change set adds to [scoreAdjustment]. *)
Definition delta (current : Beneficiary) (entry : string * Q) : Q :=
  adjust current 0 entry.

(** The [case] labels of the [switch] in [simulateScoreLocally]. *)
Definition heuristic_keys : list string :=
  [ "monthly_income"; "employment_type"; "loan_repayment_status";
    "electricity_bill_paid_on_time"; "mobile_recharge_frequency";
    "loan_tenure_months" ].

(** The largest increment the [switch] has for a key. *)
Definition gain_cap (key : string) : Q :=
  if key =? "monthly_income" then 50
  else if key =? "employment_type" then 25
  else if key =? "loan_repayment_status" then 40
  else if key =? "electricity_bill_paid_on_time" then 30
  else if key =? "mobile_recharge_frequency" then 15
  else if key =? "loan_tenure_months" then 10
  else 0.

(** The sum of the caps of a list of keys. *)
Definition total_gain (keys : list string) : Q :=
  fold_right (fun k acc => gain_cap k + acc) 0 keys.

(** A series of edits of the form, each one an integer typed into a
    control. *)
Fixpoint editAll (edits : list (string * Z)) : M unit :=
  match edits with
  | [] => ret tt
  | (parameter, v) :: rest => handleParameterChange parameter v ;; editAll rest
  end.

(** The ranges [handleParameterChange] enforces on an entry of the change
    set. *)
Definition entry_in_range (entry : string * Q) : Prop :=
  let (key, v) := entry in
  (key = "mobile_recharge_frequency" -> 1 <= v <= 4)
  /\ (key = "monthly_income" -> 0 <= v)
  /\ (key = "age" -> 18 <= v <= 65).

End SimulatorParts.

(** ** RiskMatrix.js: the four cells drawn *)

Module RiskMatrixView.
Import RiskMatrix.

(** The [isActive] props of the four [MatrixCell]s, row by row: the "Low
    Risk" row, then the "High Risk" row, which also lights up for "Medium
    Risk". *)
Definition stableActive (riskCategory : option string) : bool :=
  isCellActive riskCategory "Low Risk" "Low Need".

Definition primeActive (riskCategory : option string) : bool :=
  isCellActive riskCategory "Low Risk" "High Need".

Definition monitorActive (riskCategory : option string) : bool :=
  isCellActive riskCategory "High Risk" "Low Need"
  || isCellActive riskCategory "Medium Risk" "Low Need".

Definition highRiskActive (riskCategory : option string) : bool :=
  isCellActive riskCategory "High Risk" "High Need"
  || isCellActive riskCategory "Medium Risk" "High Need".

Definition activeCells (riskCategory : option string) : list bool :=
  [ stableActive riskCategory; primeActive riskCategory;
    monitorActive riskCategory; highRiskActive riskCategory ].

(** The number of cells lit. *)
Definition lit (cells : list bool) : nat := length (filter (fun b => b) cells).

(** The texts [getRecommendation] can return. *)
Definition table_recommendations : list string :=
  map recommendation matrixCategories.

Definition score_recommendations : list string :=
  [ "Excellent creditworthiness - approve loans confidently";
    "Good candidate - consider with standard terms";
    "Requires improvement - provide financial guidance" ].

End RiskMatrixView.

(** ** The dashboards that mount the simulator, and ScoreGauge.js *)

Module Dashboard.
Local Open Scope Q_scope.

(** [const currentScore = beneficiaryData.credit_score || 0], the prop the
    beneficiary dashboard hands to the simulator. *)
Definition currentScore (credit_score : option Q) : Q := Js.num_or credit_score 0.

Definition at_least (score k : Q) : bool := Qle_bool k score.

(** [getScoreLevel]: the level and the colour of the badge. *)
Definition getScoreLevel (score : Q) : string * string :=
  if at_least score 750 then ("Excellent", "success")
  else if at_least score 700 then ("Very Good", "success")
  else if at_least score 650 then ("Good", "primary")
  else if at_least score 600 then ("Fair", "warning")
  else ("Needs Improvement", "error").

(** [getScoreAdvice] *)
Definition getScoreAdvice (score : Q) : string :=
  if at_least score 750 then
    "Excellent credit score! You qualify for the best loan terms."
  else if at_least score 700 then
    "Very good credit score. You're eligible for most loan products."
  else if at_least score 650 then
    "Good credit score. Consider improving it for better loan terms."
  else if at_least score 600 then
    "Fair credit score. Focus on building your credit history."
  else
    "Your credit score needs improvement. Follow our recommendations to boost it.".

(** The order of the levels, lowest first. *)
Definition level_rank (level : string) : nat :=
  if level =? "Excellent" then 4
  else if level =? "Very Good" then 3
  else if level =? "Good" then 2
  else if level =? "Fair" then 1
  else 0.

End Dashboard.

Module ScoreGauge.
Local Open Scope Q_scope.

(** [normalizedScore], over exact rationals: the division and the product
    are not rounded as they are in floating point, so the properties proved
    of it are those that rounding preserves (bounds, order, the clamp), for
    [minScore < maxScore]. *)
Definition normalizedScore (score maxScore minScore : Q) : Q :=
  ((score - minScore) / (maxScore - minScore)) * 100.

(** [gaugeFillPercentage] and [gaugeEmptyPercentage] *)
Definition gaugeFillPercentage (score maxScore minScore : Q) : Q :=
  Qmin 100 (Qmax 0 (normalizedScore score maxScore minScore)).

Definition gaugeEmptyPercentage (score maxScore minScore : Q) : Q :=
  100 - gaugeFillPercentage score maxScore minScore.

(** [getScoreColor] *)
Definition getScoreColor (score : Q) : string :=
  if Qle_bool 750 score then "#4caf50"
  else if Qle_bool 650 score then "#8bc34a"
  else if Qle_bool 550 score then "#ff9800"
  else if Qle_bool 450 score then "#ff5722"
  else "#f44336".

(** [getScoreLabel] *)
Definition getScoreLabel (score : Q) : string :=
  if Qle_bool 750 score then "Excellent"
  else if Qle_bool 650 score then "Good"
  else if Qle_bool 550 score then "Fair"
  else if Qle_bool 450 score then "Poor"
  else "Very Poor".

(** The defaults of the props. *)
Definition defaultMax : Q := 900.
Definition defaultMin : Q := 300.

End ScoreGauge.

(** ** InstaLoanEligibility.js *)

Module InstaLoan.
Import Data.
Local Open Scope Q_scope.

(** The object [calculateEligibility] returns. *)
Record Eligibility : Type := {
  status : string;
  eligibilityScore : Q;
  maxLoanAmount : Q;
  interestRate : Q;
  emi : Z;
  requestedAmount : Q;
  tenure : positive;
  reasons : list string;
  benefits : list string;
  processingTime : string
}.

(** The local variables the function updates factor by factor. *)
Record Tally : Type := {
  t_score : Q;
  t_max : Q;
  t_rate : Q;
  t_reasons : list string;
  t_benefits : list string
}.

Definition start : Tally :=
  {| t_score := 0; t_max := 0; t_rate := 18; t_reasons := []; t_benefits := [] |}.

(** [v === k] for a field that may hold anything. *)
Definition is_num (v : Js.value) (k : Q) : bool :=
  match v with Js.Num q => Qeq_bool q k | _ => false end.

(** [f === k] for a numeric field that may be absent. *)
Definition field_is (f : option Q) (k : Q) : bool :=
  match f with Some q => Qeq_bool q k | None => false end.

(** Score-based eligibility. *)
Definition byScore (score : Q) (t : Tally) : Tally :=
  if Qle_bool 700 score then
    {| t_score := t_score t + 40; t_max := t_max t + 200000; t_rate := 12;
       t_reasons := t_reasons t;
       t_benefits := t_benefits t ++ ["Premium interest rates"] |}
  else if Qle_bool 600 score then
    {| t_score := t_score t + 30; t_max := t_max t + 150000; t_rate := 15;
       t_reasons := t_reasons t;
       t_benefits := t_benefits t ++ ["Standard interest rates"] |}
  else if Qle_bool 500 score then
    {| t_score := t_score t + 20; t_max := t_max t + 75000; t_rate := 17;
       t_reasons := t_reasons t ++ ["Credit score below 600"];
       t_benefits := t_benefits t |}
  else
    {| t_score := t_score t + 10; t_max := t_max t + 25000; t_rate := t_rate t;
       t_reasons := t_reasons t ++ ["Low credit score requires improvement"];
       t_benefits := t_benefits t |}.

(** Employment-based eligibility. *)
Definition byEmployment (employment_type : Js.value) (monthly_income : Q)
    (t : Tally) : Tally :=
  if is_num employment_type 2 then
    {| t_score := t_score t + 25; t_max := t_max t + monthly_income * 10;
       t_rate := t_rate t; t_reasons := t_reasons t;
       t_benefits := t_benefits t ++ ["Stable salaried employment"] |}
  else if is_num employment_type 1 then
    {| t_score := t_score t + 20; t_max := t_max t + monthly_income * 6;
       t_rate := t_rate t; t_reasons := t_reasons t;
       t_benefits := t_benefits t ++ ["Self-employment income verified"] |}
  else
    {| t_score := t_score t + 5; t_max := t_max t; t_rate := t_rate t;
       t_reasons := t_reasons t ++ ["Employment status needs verification"];
       t_benefits := t_benefits t |}.

(** Income-based eligibility. *)
Definition byIncome (monthly_income : Q) (t : Tally) : Tally :=
  if Qle_bool 25000 monthly_income then
    {| t_score := t_score t + 20; t_max := t_max t + 100000; t_rate := t_rate t;
       t_reasons := t_reasons t;
       t_benefits := t_benefits t ++ ["High income bracket"] |}
  else if Qle_bool 15000 monthly_income then
    {| t_score := t_score t + 15; t_max := t_max t + 50000; t_rate := t_rate t;
       t_reasons := t_reasons t;
       t_benefits := t_benefits t ++ ["Good income level"] |}
  else if Qle_bool 10000 monthly_income then
    {| t_score := t_score t + 10; t_max := t_max t; t_rate := t_rate t;
       t_reasons := t_reasons t;
       t_benefits := t_benefits t ++ ["Adequate income"] |}
  else
    {| t_score := t_score t + 5; t_max := t_max t; t_rate := t_rate t;
       t_reasons := t_reasons t ++ ["Income below minimum threshold"];
       t_benefits := t_benefits t |}.

(** Payment history. *)
Definition byPayments (loan bills : option Q) (t : Tally) : Tally :=
  if field_is loan 1 && field_is bills 1 then
    {| t_score := t_score t + 15; t_max := t_max t + 75000;
       t_rate := Qmax (t_rate t - 2) 10;
       t_reasons := t_reasons t;
       t_benefits := t_benefits t ++ ["Excellent payment history"] |}
  else if field_is loan 1 || field_is bills 1 then
    {| t_score := t_score t + 10; t_max := t_max t;
       t_rate := Qmax (t_rate t - 1) 11;
       t_reasons := t_reasons t;
       t_benefits := t_benefits t ++ ["Good payment track record"] |}
  else
    {| t_score := t_score t + 5; t_max := t_max t; t_rate := t_rate t;
       t_reasons := t_reasons t ++ ["Payment history needs improvement"];
       t_benefits := t_benefits t |}.

(** The four factors in the order of the code. *)
Definition tally (data : Beneficiary) (score : Q) : Tally :=
  let monthly_income := Js.num_nullish (monthly_income data) 0 in
  byPayments (loan_repayment_status data) (electricity_bill_paid_on_time data)
    (byIncome monthly_income
       (byEmployment (employment_type data) monthly_income
          (byScore score start))).

(** The status before the requested amount is looked at, with the reason the
    conditional status adds. *)
Definition decide (t : Tally) : string * list string :=
  if Qle_bool 80 (t_score t) then ("approved", t_reasons t)
  else if Qle_bool 60 (t_score t) then
    ("conditional", (t_reasons t ++ ["May require additional documentation"])%list)
  else ("rejected", t_reasons t).

(** The monthly instalment, before rounding. *)
Definition instalment (amount rate : Q) (months : positive) : Q :=
  let monthlyRate := rate / 100 / 12 in
  amount * monthlyRate * Qpower_positive (1 + monthlyRate) months
  / (Qpower_positive (1 + monthlyRate) months - 1).

Section Eligibility.

(** [Number.prototype.toLocaleString], which depends on the locale of the
    browser. *)
Variable toLocaleString : Q -> string.

(** [calculateEligibility]; [None] is the [null] it returns without data or
    without a score.  [selectedAmount] and [selectedTenure] are the state of
    the two controls. *)
Definition calculateEligibility (beneficiaryData : option Beneficiary)
    (score : option Q) (selectedAmount : Q) (selectedTenure : positive)
    : option Eligibility :=
  match beneficiaryData, score with
  | None, _ | _, None => None
  | Some data, Some sc =>
      if Qeq_bool sc 0 then None
      else
        let t := tally data sc in
        let (status0, reasons0) := decide t in
        let requestedAmountEligible := Qle_bool selectedAmount (t_max t) in
        let reasons1 :=
          if requestedAmountEligible then reasons0
          else (reasons0 ++ [("Requested amount exceeds limit of ₹"
                              ++ toLocaleString (t_max t))%string])%list in
        let status1 :=
          if requestedAmountEligible then status0
          else if status0 =? "approved" then "conditional" else status0 in
        Some {| status := status1;
                eligibilityScore := t_score t;
                maxLoanAmount := Qmin (t_max t) 500000;
                interestRate := t_rate t;
                emi := Js.round (instalment selectedAmount (t_rate t) selectedTenure);
                requestedAmount := selectedAmount;
                tenure := selectedTenure;
                reasons := reasons1;
                benefits := t_benefits t;
                processingTime :=
                  if status1 =? "approved" then "24 hours"
                  else if status1 =? "conditional" then "3-5 days"
                  else "N/A" |}
  end.

End Eligibility.

(** [getStatusColor] and [getStatusText] *)
Definition getStatusColor (st : string) : string :=
  if st =? "approved" then "success"
  else if st =? "conditional" then "warning"
  else if st =? "rejected" then "error"
  else "default".

Definition getStatusText (st : string) : string :=
  if st =? "approved" then "Instantly Approved"
  else if st =? "conditional" then "Conditional Approval"
  else if st =? "rejected" then "Not Eligible"
  else "Unknown".

(** The order of the statuses, worst first. *)
Definition status_rank (st : string) : nat :=
  if st =? "approved" then 2
  else if st =? "conditional" then 1
  else 0.

(** A locale-free stand-in for examples: the integer part in plain digits. *)
Definition plainDigits (q : Q) : string := Js.show_int (Qfloor q).

End InstaLoan.

(** ** Vocabulary for the statements about strings and change sets *)

Module Text.

(** The character does not occur in the string. *)
Fixpoint lacks (c : ascii) (s : string) : bool :=
  match s with
  | EmptyString => true
  | String x rest => negb (Ascii.eqb x c) && lacks c rest
  end.

(** The entry stored for a key of the change set, as [changes[key]] reads
    it. *)
Fixpoint change_of (key : string) (obj : list (string * Q)) : option Q :=
  match obj with
  | [] => None
  | (k, v) :: rest => if k =? key then Some v else change_of key rest
  end.


End Text.

(** * Properties *)

(** ** Rounding *)

Module JsFacts.
Local Open Scope Q_scope.

Lemma floor_unique (x : Q) (z : Z) :
  inject_Z z <= x -> x < inject_Z (z + 1) -> Qfloor x = z.
Proof.
  intros Hlo Hhi.
  pose proof (Qfloor_le x) as Hf.
  pose proof (Qlt_floor x) as Hl.
  assert (H1 : inject_Z z < inject_Z (Qfloor x + 1)) by (eapply Qle_lt_trans; eauto).
  assert (H2 : inject_Z (Qfloor x) < inject_Z (z + 1)) by (eapply Qle_lt_trans; eauto).
  rewrite <- Zlt_Qlt in H1, H2. lia.
Qed.

Lemma floor_shift (z : Z) (x : Q) : Qfloor (inject_Z z + x) = (z + Qfloor x)%Z.
Proof.
  apply floor_unique.
  - rewrite inject_Z_plus. pose proof (Qfloor_le x). lra.
  - replace (z + Qfloor x + 1)%Z with (z + (Qfloor x + 1))%Z by lia.
    rewrite inject_Z_plus. pose proof (Qlt_floor x). lra.
Qed.

Lemma round_int (z : Z) : Js.round (inject_Z z) = z.
Proof.
  unfold Js.round. rewrite floor_shift.
  replace (Qfloor (1 # 2)) with 0%Z by reflexivity. lia.
Qed.

Lemma round_shift (z : Z) (x : Q) : Js.round (inject_Z z + x) = (z + Js.round x)%Z.
Proof.
  unfold Js.round.
  rewrite <- floor_shift. apply Qfloor_comp. ring.
Qed.

Lemma round_comp (x y : Q) : x == y -> Js.round x = Js.round y.
Proof. intros E. unfold Js.round. apply Qfloor_comp. rewrite E. reflexivity. Qed.

Lemma round_mono (x y : Q) : x <= y -> (Js.round x <= Js.round y)%Z.
Proof. intros H. unfold Js.round. apply Qfloor_resp_le. lra. Qed.

Lemma round_lower (x : Q) : x - (1 # 2) < inject_Z (Js.round x).
Proof.
  unfold Js.round. pose proof (Qlt_floor (x + (1 # 2))) as H.
  rewrite inject_Z_plus in H. change (inject_Z 1) with 1 in H. lra.
Qed.

Lemma round_upper (x : Q) : inject_Z (Js.round x) <= x + (1 # 2).
Proof. unfold Js.round. apply Qfloor_le. Qed.

Lemma min_le_r (x y : Q) : Qmin x y <= y.
Proof. apply Q.le_min_r. Qed.

Lemma min_le_l (x y : Q) : Qmin x y <= x.
Proof. apply Q.le_min_l. Qed.

Lemma min_left (x y : Q) : x <= y -> Qmin x y == x.
Proof. apply Q.min_l. Qed.

Lemma min_right (x y : Q) : y <= x -> Qmin x y == y.
Proof. apply Q.min_r. Qed.

Lemma max_left (x y : Q) : y <= x -> Qmax x y == x.
Proof. apply Q.max_l. Qed.

Lemma max_right (x y : Q) : x <= y -> Qmax x y == y.
Proof. apply Q.max_r. Qed.

(** Clamping to [[lo, hi]] leaves a value of the interval alone. *)
Lemma clamp_inside (lo hi x : Q) :
  lo <= x <= hi -> Qmax lo (Qmin hi x) == x.
Proof.
  intros [Hlo Hhi].
  rewrite (min_right hi x Hhi). apply max_right. exact Hlo.
Qed.

Lemma clamp_bounds (lo hi x : Q) :
  lo <= hi -> lo <= Qmax lo (Qmin hi x) <= hi.
Proof.
  intros H. split.
  - apply Q.le_max_l.
  - apply Q.max_lub; [exact H | apply Q.le_min_l].
Qed.

Lemma gtb_true (a b : Q) : ScoreSimulator.Qgtb a b = true <-> b < a.
Proof.
  unfold ScoreSimulator.Qgtb. rewrite negb_true_iff.
  split; intros H.
  - apply Qnot_le_lt. intros L. apply Qle_bool_iff in L. congruence.
  - destruct (Qle_bool a b) eqn:E; [|reflexivity].
    apply Qle_bool_iff in E. lra.
Qed.

Lemma gtb_false (a b : Q) : ScoreSimulator.Qgtb a b = false <-> a <= b.
Proof.
  unfold ScoreSimulator.Qgtb. rewrite negb_false_iff. apply Qle_bool_iff.
Qed.

Lemma ltb_true (a b : Q) : ScoreSimulator.Qltb a b = true <-> a < b.
Proof. apply (gtb_true b a). Qed.

Lemma ltb_false (a b : Q) : ScoreSimulator.Qltb a b = false <-> b <= a.
Proof. apply (gtb_false b a). Qed.

Lemma prefix_app (p s : string) : String.prefix p (p ++ s) = true.
Proof.
  induction p as [|c p IH]; cbn.
  - destruct s; reflexivity.
  - destruct (Ascii.ascii_dec c c) as [_|N]; [exact IH | congruence].
Qed.

Lemma num_or_zero (f : option Q) (d : Q) :
  f = None \/ (exists q, f = Some q /\ q == 0) -> Js.num_or f d = d.
Proof.
  intros [-> | [q [-> E]]]; [reflexivity|].
  unfold Js.num_or. apply Qeq_bool_iff in E. now rewrite E.
Qed.

End JsFacts.

(** ** What one click on "Simulate" does *)

Module HandlerFacts.
Import Data Eff ScoreSimulator Observe.
Local Open Scope Q_scope.

#[local] Arguments isConnectionIssue : simpl never.
#[local] Arguments Api.failure_message : simpl never.
#[local] Arguments simulateScoreLocally : simpl never.
#[local] Arguments prepareDataForBackend : simpl never.
#[local] Arguments prepareChanges : simpl never.
#[local] Arguments chartOf : simpl never.
#[local] Arguments String.append : simpl never.
#[local] Arguments Js.show_int : simpl never.
#[local] Arguments fallback_marker : simpl never.
#[local] Arguments no_changes_message : simpl never.
#[local] Arguments not_responding_message : simpl never.

Ltac run_handler :=
  unfold simulate, run, handleSimulate; cbn;
  repeat match goal with
         | H : hypotheticalChanges _ = _ |- _ => rewrite H; cbn
         | H : isConnectionIssue _ = _ |- _ => rewrite H; cbn
         end.

(** Nothing to simulate: only the error is set. *)
Lemma simulate_empty s currentData cs net :
  hypotheticalChanges s = [] ->
  simulate s currentData cs net =
  {| ui := {| hypotheticalChanges := hypotheticalChanges s;
              projectedScore := projectedScore s;
              scoreChange := scoreChange s;
              explanationText := explanationText s;
              loading := loading s;
              error := Some no_changes_message;
              chartData := chartData s |};
     trace := [] |}.
Proof. intros H. destruct currentData; run_handler; reflexivity. Qed.

Section OneClick.

Variables (s : SimState) (data : Beneficiary) (cs : option Q).
Hypothesis changed : hypotheticalChanges s <> [].

(** The backend answered. *)
Lemma simulate_answered (status : Z) (res : SimulationResult) :
  simulate s (Some data) cs (Responded status res) =
  {| ui := {| hypotheticalChanges := hypotheticalChanges s;
              projectedScore := Some (projected_score res);
              scoreChange := score_change res;
              explanationText := explanation res;
              loading := false;
              error := None;
              chartData := chartOf cs (projected_score res) |};
     trace := sent data (hypotheticalChanges s)
              ++ [ Console Log [Text ("API Response: " ++ Js.show_int status ++ " /simulate")];
                   Console Log [Text "Backend simulation result:"; Result res] ] |}.
Proof.
  destruct (hypotheticalChanges s) as [|c l] eqn:E; [congruence|].
  run_handler. reflexivity.
Qed.

(** The request failed and the failure counts as a connection issue. *)
Lemma simulate_unreachable (e : AxiosError) :
  isConnectionIssue (Api.failure_message e) = true ->
  simulate s (Some data) cs (Failed e) =
  {| ui := {| hypotheticalChanges := hypotheticalChanges s;
              projectedScore := projectedScore s;
              scoreChange := scoreChange s;
              explanationText := explanationText s;
              loading := false;
              error := Some not_responding_message;
              chartData := chartData s |};
     trace := tried e data (hypotheticalChanges s)
              ++ [ Console Error [Text "API Response Error:"; Failure e];
                   Console Error [Text "Backend simulation failed:";
                                  Text (Api.failure_message e)] ] |}.
Proof.
  intros He. destruct (hypotheticalChanges s) as [|c l] eqn:E; [congruence|].
  destruct e; run_handler; reflexivity.
Qed.

(** The request failed in another way: the local heuristic takes over. *)
Lemma simulate_fallback (e : AxiosError) :
  isConnectionIssue (Api.failure_message e) = false ->
  let r := simulateScoreLocally cs data (hypotheticalChanges s) in
  simulate s (Some data) cs (Failed e) =
  {| ui := {| hypotheticalChanges := hypotheticalChanges s;
              projectedScore := Some (inject_Z (local_projected_score r));
              scoreChange := inject_Z (local_score_change r);
              explanationText := fallback_marker ++ local_explanation r;
              loading := false;
              error := None;
              chartData := chartOf cs (inject_Z (local_projected_score r)) |};
     trace := tried e data (hypotheticalChanges s)
              ++ [ Console Error [Text "API Response Error:"; Failure e];
                   Console Error [Text "Backend simulation failed:";
                                  Text (Api.failure_message e)];
                   Console Warn [Text "Using local fallback calculation"] ] |}.
Proof.
  intros He. destruct (hypotheticalChanges s) as [|c l] eqn:E; [congruence|].
  destruct e; run_handler; reflexivity.
Qed.

End OneClick.

(** A backend that does not answer is a connection issue. *)
Lemma no_response_is_connection_issue :
  isConnectionIssue (Api.failure_message NoResponse) = true.
Proof. reflexivity. Qed.

(** *** Building the change set *)

Lemma set_key_keys (key : string) (v : Q) (obj : list (string * Q)) :
  forall k, In k (map fst (set_key key v obj)) <-> k = key \/ In k (map fst obj).
Proof.
  induction obj as [|[k0 old] rest IH]; intros k; cbn.
  - split; [intros [H | []]; auto | intros [H | []]; auto].
  - destruct (String.eqb_spec k0 key) as [-> | N]; cbn.
    + intuition congruence.
    + rewrite IH. intuition congruence.
Qed.

(** The keys of the change set stay pairwise different. *)
Lemma set_key_nodup (key : string) (v : Q) (obj : list (string * Q)) :
  NoDup (map fst obj) -> NoDup (map fst (set_key key v obj)).
Proof.
  induction obj as [|[k0 old] rest IH]; cbn; intros H.
  - constructor; [intros [] | constructor].
  - inversion H as [|? ? Hnotin Hrest]; subst.
    destruct (String.eqb_spec k0 key) as [-> | N]; cbn.
    + constructor; assumption.
    + constructor; [|apply IH; exact Hrest].
      rewrite set_key_keys. intros [E | Hin]; [congruence | contradiction].
Qed.

(** A negative income is refused: the error is set and the change set is
    left as it was. *)
Lemma negative_income_refused (s : SimState) (v : Z) :
  (v < 0)%Z ->
  let w := run (handleParameterChange "monthly_income" v) s in
  error (ui w) = Some "Monthly income must be positive"
  /\ hypotheticalChanges (ui w) = hypotheticalChanges s.
Proof.
  intros Hv. unfold run, handleParameterChange.
  destruct (Z.ltb_spec v 0) as [_ | N]; [|lia].
  cbn. split; reflexivity.
Qed.

(** After a reset there is nothing to simulate. *)
Lemma reset_clears (s : SimState) :
  let w := run resetSimulation s in
  hypotheticalChanges (ui w) = []
  /\ projectedScore (ui w) = None
  /\ error (ui w) = None.
Proof. repeat split. Qed.

End HandlerFacts.

(** ** The local heuristic *)

Module HeuristicFacts.
Import Data ScoreSimulator Observe JsFacts.
Local Open Scope Q_scope.

Lemma reads_as_zero_num_or (f : option Q) (d : Q) :
  reads_as_zero f -> Js.num_or f d = d.
Proof.
  intros H. apply num_or_zero. destruct f as [q|]; [right; eauto | left; reflexivity].
Qed.

Lemma num_or_value (q d : Q) : ~ q == 0 -> Js.num_or (Some q) d = q.
Proof.
  intros H. unfold Js.num_or.
  destruct (Qeq_bool q 0) eqn:E; [|reflexivity].
  apply Qeq_bool_iff in E. contradiction.
Qed.

(** [x || 0] is [x] up to the representation of zero. *)
Lemma num_or_0 (f : option Q) : Js.num_or f 0 == Js.num_nullish f 0.
Proof.
  destruct f as [q|]; cbn; [|reflexivity].
  destruct (Qeq_bool q 0) eqn:E; [|reflexivity].
  apply Qeq_bool_iff in E. now rewrite E.
Qed.

(** The loop on the single change "repayment status becomes 1" when it was 0. *)
Lemma repay_adjustment (data : Beneficiary) :
  reads_as_zero (loan_repayment_status data) ->
  scoreAdjustmentOf data [("loan_repayment_status", 1)] = 0 + 40.
Proof.
  intros H. unfold scoreAdjustmentOf, adjust. cbn.
  rewrite (reads_as_zero_num_or _ 0 H). reflexivity.
Qed.

(** The loop on the single change of the monthly income. *)
Lemma income_adjustment (data : Beneficiary) (v : Q) :
  scoreAdjustmentOf data [("monthly_income", v)]
  = 0 + Qmin ((v - Js.num_or (monthly_income data) 0) / 1000 * 2) 50.
Proof. reflexivity. Qed.

Lemma projected_in_range cs data changes :
  (300 <= local_projected_score (simulateScoreLocally cs data changes) <= 850)%Z.
Proof.
  unfold simulateScoreLocally; cbn [local_projected_score].
  set (x := baseScoreOf cs + scoreAdjustmentOf data changes).
  assert (B : 300 <= Qmax 300 (Qmin 850 x) <= 850) by (apply clamp_bounds; lra).
  destruct B as [Lo Hi]. split.
  - rewrite <- (round_int 300). apply round_mono. exact Lo.
  - rewrite <- (round_int 850). apply round_mono. exact Hi.
Qed.

(** Improving the repayment status never lowers a score of at most 850. *)
Lemma repay_monotone_up_to_cap (data : Beneficiary) (q : Q) :
  reads_as_zero (loan_repayment_status data) ->
  q <= 850 ->
  q <= inject_Z (local_projected_score
                   (simulateScoreLocally (Some q) data [("loan_repayment_status", 1)])).
Proof.
  intros Hz Hq.
  unfold simulateScoreLocally; cbn [local_projected_score].
  rewrite (repay_adjustment data Hz).
  set (b := baseScoreOf (Some q)).
  assert (Hb : q <= b).
  { unfold b, baseScoreOf, Js.num_or.
    destruct (Qeq_bool q 0) eqn:E; [|lra].
    apply Qeq_bool_iff in E. lra. }
  set (x := Qmax 300 (Qmin 850 (b + (0 + 40)))).
  pose proof (round_lower x) as Hr.
  destruct (Q.min_spec 850 (b + (0 + 40))) as [[Hlt Hmin] | [Hle Hmin]].
  - assert (Hx : x == 850).
    { unfold x. rewrite Hmin. apply max_right. lra. }
    rewrite (round_comp x 850 Hx).
    change (Js.round 850) with (Js.round (inject_Z 850)).
    rewrite round_int. exact Hq.
  - assert (Hx : b + 40 <= x).
    { unfold x. rewrite Hmin. eapply Qle_trans; [|apply Q.le_max_r]. lra. }
    lra.
Qed.

(** Clamping and rounding an integer is clamping it as an integer. *)
Lemma clamp_int (z : Z) :
  Js.round (Qmax 300 (Qmin 850 (inject_Z z))) = Z.max 300 (Z.min 850 z).
Proof.
  assert (Hle : forall a b : Z, (a <= b)%Z -> inject_Z a <= inject_Z b)
    by (intros a b H; now rewrite <- Zle_Qle).
  change 300 with (inject_Z 300). change 850 with (inject_Z 850).
  destruct (Z.le_gt_cases z 850) as [Hhi | Hhi].
  - rewrite (round_comp _ (Qmax (inject_Z 300) (inject_Z z))).
    2:{ apply Q.max_compat; [reflexivity|]. apply Q.min_r. apply Hle. exact Hhi. }
    rewrite (Z.min_r 850 z) by exact Hhi.
    destruct (Z.le_gt_cases 300 z) as [Hlo | Hlo].
    + rewrite (round_comp _ (inject_Z z)) by (apply Q.max_r; apply Hle; exact Hlo).
      rewrite round_int. symmetry. apply Z.max_r. exact Hlo.
    + rewrite (round_comp _ (inject_Z 300)) by (apply Q.max_l; apply Hle; lia).
      rewrite round_int. symmetry. apply Z.max_l. lia.
  - rewrite (round_comp _ (Qmax (inject_Z 300) (inject_Z 850))).
    2:{ apply Q.max_compat; [reflexivity|]. apply Q.min_l. apply Hle. lia. }
    rewrite (Z.min_l 850 z) by lia. reflexivity.
Qed.

(** What the loop adds for a single change of the repayment status. *)
Lemma repay_delta (data : Beneficiary) (v : Q) :
  let old := Js.num_or (loan_repayment_status data) 0 in
  (old < v -> scoreAdjustmentOf data [("loan_repayment_status", v)] == 40)
  /\ (v < old -> scoreAdjustmentOf data [("loan_repayment_status", v)] == - 40)
  /\ (v == old -> scoreAdjustmentOf data [("loan_repayment_status", v)] == 0).
Proof.
  intros old. unfold scoreAdjustmentOf, adjust; cbn. fold old.
  destruct (Qgtb v old) eqn:G; [apply gtb_true in G | apply gtb_false in G];
    (destruct (Qltb v old) eqn:L; [apply ltb_true in L | apply ltb_false in L]);
    repeat split; intros H; first [exfalso; lra | ring].
Qed.

(** The result of the heuristic for an integer current score and an integer
    adjustment. *)
Lemma integer_result (b k : Z) (data : Beneficiary) (changes : list (string * Q)) :
  b <> 0%Z ->
  scoreAdjustmentOf data changes == inject_Z k ->
  local_score_change (simulateScoreLocally (Some (inject_Z b)) data changes) = k
  /\ local_projected_score (simulateScoreLocally (Some (inject_Z b)) data changes)
     = Z.max 300 (Z.min 850 (b + k)).
Proof.
  intros Hb Ha. unfold simulateScoreLocally; cbn [local_projected_score local_score_change].
  assert (Hbase : baseScoreOf (Some (inject_Z b)) = inject_Z b).
  { apply num_or_value. intros E. unfold Qeq in E. cbn in E. lia. }
  rewrite Hbase. split.
  - rewrite (round_comp _ _ Ha). apply round_int.
  - rewrite <- clamp_int. apply round_comp.
    apply Q.max_compat; [reflexivity|]. apply Q.min_compat; [reflexivity|].
    rewrite Ha, inject_Z_plus. reflexivity.
Qed.

(** The text of the heuristic does not begin like the prefix the handler
    adds. *)
Lemma untagged_explanation (a : Q) :
  String.prefix "⚠️ Using simplified calculation (backend unavailable): " (explain a)
  = false.
Proof.
  unfold explain.
  destruct (Qgtb a 0); [|destruct (Qltb a 0)]; reflexivity.
Qed.

End HeuristicFacts.

(** ** The simulator: degraded mode, empty change sets, score deltas *)

Module SimulatorClaims.
Import Data ScoreSimulator Observe JsFacts HandlerFacts HeuristicFacts.
Local Open Scope Q_scope.

(** C1.  When the request fails in a way that makes [handleSimulate] use the
    local heuristic, what the component shows is the heuristic's result and
    it is told apart from a model-backed one: the explanation is the
    heuristic's text behind the prefix "⚠️ Using simplified calculation
    (backend unavailable): ", which the heuristic's own text never starts
    with, whereas an answered request shows the backend's explanation as it
    came.  The numbers are those of the heuristic: the rounded adjustment,
    and the rounded clamp to 300..850 of the current score (650 when missing
    or zero) plus the adjustment.  For a non-zero integer current score [b]
    and the single change of the repayment status to [v], the score change
    is +40 when [v] is above the current status, -40 when below and 0 when
    equal, and the projected score is [b] plus that change clamped to
    300..850; in particular 650 and a change from 0 to 1 give 690 and
    +40. *)
Theorem C1_degraded_output_tagged_and_exact :
  forall (s : SimState) (data : Beneficiary) (cs : option Q) (e : AxiosError),
    hypotheticalChanges s <> [] ->
    isConnectionIssue (Api.failure_message e) = false ->
    let w := simulate s (Some data) cs (Failed e) in
    let r := simulateScoreLocally cs data (hypotheticalChanges s) in
    let tag := "⚠️ Using simplified calculation (backend unavailable): " in
    explanationText (ui w) = tag ++ local_explanation r
    /\ String.prefix tag (explanationText (ui w)) = true
    /\ String.prefix tag (local_explanation r) = false
    /\ (forall (status : Z) (res : SimulationResult),
          explanationText (ui (simulate s (Some data) cs (Responded status res)))
          = explanation res)
    /\ projectedScore (ui w) = Some (inject_Z (local_projected_score r))
    /\ scoreChange (ui w) = inject_Z (local_score_change r)
    /\ local_score_change r = Js.round (scoreAdjustmentOf data (hypotheticalChanges s))
    /\ local_projected_score r
       = Js.round (Qmax 300 (Qmin 850 (Js.num_or cs 650
                                       + scoreAdjustmentOf data (hypotheticalChanges s))))
    /\ (forall (b : Z) (v : Q),
          hypotheticalChanges s = [("loan_repayment_status", v)] ->
          cs = Some (inject_Z b) ->
          b <> 0%Z ->
          let old := Js.num_or (loan_repayment_status data) 0 in
          (old < v ->
           local_score_change r = 40%Z
           /\ local_projected_score r = Z.max 300 (Z.min 850 (b + 40)))
          /\ (v < old ->
              local_score_change r = (- 40)%Z
              /\ local_projected_score r = Z.max 300 (Z.min 850 (b - 40)))
          /\ (v == old ->
              local_score_change r = 0%Z
              /\ local_projected_score r = Z.max 300 (Z.min 850 b)))
    /\ (hypotheticalChanges s = [("loan_repayment_status", 1)] ->
        reads_as_zero (loan_repayment_status data) ->
        cs = Some 650 ->
        local_projected_score r = 690%Z /\ local_score_change r = 40%Z).
Proof.
  intros s data cs e Hne He w r tag.
  assert (Hshown : explanationText (ui w) = tag ++ local_explanation r).
  { unfold w. rewrite (simulate_fallback s data cs Hne e He). reflexivity. }
  split; [exact Hshown|].
  split; [rewrite Hshown; apply prefix_app|].
  split; [apply untagged_explanation|].
  split; [intros status res; rewrite (simulate_answered s data cs Hne); reflexivity|].
  unfold w. rewrite (simulate_fallback s data cs Hne e He).
  cbn [ui projectedScore scoreChange]. fold r.
  split; [reflexivity|]. split; [reflexivity|].
  split; [reflexivity|]. split; [reflexivity|]. split.
  - intros b v Hc Hcs Hb. unfold r. rewrite Hc, Hcs.
    destruct (repay_delta data v) as (Hup & Hdown & Hsame).
    split; [|split].
    + intros Hv.
      destruct (integer_result b 40 data [("loan_repayment_status", v)] Hb (Hup Hv))
        as [H1 H2].
      split; assumption.
    + intros Hv.
      destruct (integer_result b (- 40) data [("loan_repayment_status", v)] Hb (Hdown Hv))
        as [H1 H2].
      split; [exact H1|]. rewrite H2. f_equal.
    + intros Hv.
      destruct (integer_result b 0 data [("loan_repayment_status", v)] Hb (Hsame Hv))
        as [H1 H2].
      split; [exact H1|]. rewrite H2, Z.add_0_r. reflexivity.
  - intros Hc Hz Hcs. unfold r. rewrite Hc, Hcs.
    unfold simulateScoreLocally; cbn [local_projected_score local_score_change].
    rewrite (repay_adjustment data Hz). split; reflexivity.
Qed.

Lemma C1_degraded_output_tagged_and_exact_witness :
  let w := simulate Samples.repaying (Some Samples.struggling) (Some 650)
                    (Failed Samples.model_down) in
  isConnectionIssue (Api.failure_message Samples.model_down) = false
  /\ String.prefix "⚠️ Using simplified calculation (backend unavailable): "
                   (explanationText (ui w)) = true
  /\ projectedScore (ui w) = Some (inject_Z 690)
  /\ scoreChange (ui w) = inject_Z 40.
Proof.
  assert (Hne : hypotheticalChanges Samples.repaying <> []) by discriminate.
  assert (He : isConnectionIssue (Api.failure_message Samples.model_down) = false)
    by reflexivity.
  destruct (C1_degraded_output_tagged_and_exact
              Samples.repaying Samples.struggling (Some 650) Samples.model_down Hne He)
    as (_ & Hp & _ & _ & Hs & Hc & _ & _ & Hg & _).
  assert (Hb : 650%Z <> 0%Z) by discriminate.
  assert (Hv : Js.num_or (loan_repayment_status Samples.struggling) 0 < 1) by reflexivity.
  destruct (Hg 650%Z 1 eq_refl eq_refl Hb) as (Hup & _).
  destruct (Hup Hv) as [Hn2 Hn1].
  rewrite Hn1 in Hs. rewrite Hn2 in Hc.
  exact (conj He (conj Hp (conj Hs Hc))).
Defined.






End SimulatorClaims.

(** ** The heuristic's numbers *)

Module HeuristicClaims.
Import Data ScoreSimulator Observe JsFacts HeuristicFacts.
Local Open Scope Q_scope.

(** C3, as the spec has it, fails: at a current score of 840 the change of
    the repayment status from 0 to 1 gives a projected score of 850 (the
    cap) and a score change of 40, not 850 - 840 = 10. *)
Lemma C3_counterexample :
  let r := simulateScoreLocally (Some 840) Samples.struggling
                                [("loan_repayment_status", 1)] in
  local_projected_score r = 850%Z
  /\ local_score_change r = 40%Z
  /\ local_score_change r <> (local_projected_score r - 840)%Z.
Proof.
  split; [reflexivity|]. split; [reflexivity|].
  intros H. vm_compute in H. discriminate H.
Qed.

(** C3, amended.  The score change of the heuristic is the rounded sum of
    the per-field deltas, always: it is computed from the adjustment alone,
    whether or not the projected score is clamped, and so it does not depend
    on the current score.  For a non-zero integer current score [b] it
    equals the projected score minus [b] when [b] plus the adjustment lies
    within the bounds 300 and 850 of the clamp; above 850 the projected
    score is 850 and the difference is at most the score change, below 300
    the projected score is 300 and the difference is at least the score
    change. *)
Theorem C3_score_change_is_unclamped_adjustment :
  (forall (cs : option Q) (data : Beneficiary) (changes : list (string * Q)),
      local_score_change (simulateScoreLocally cs data changes)
      = Js.round (scoreAdjustmentOf data changes))
  /\ (forall (cs cs' : option Q) (data : Beneficiary) (changes : list (string * Q)),
        local_score_change (simulateScoreLocally cs data changes)
        = local_score_change (simulateScoreLocally cs' data changes))
  /\ (forall (b : Z) (data : Beneficiary) (changes : list (string * Q)),
        b <> 0%Z ->
        let r := simulateScoreLocally (Some (inject_Z b)) data changes in
        let total := inject_Z b + scoreAdjustmentOf data changes in
        (300 <= total <= 850 ->
         local_score_change r = (local_projected_score r - b)%Z)
        /\ (850 < total ->
            local_projected_score r = 850%Z
            /\ (local_projected_score r - b <= local_score_change r)%Z)
        /\ (total < 300 ->
            local_projected_score r = 300%Z
            /\ (local_score_change r <= local_projected_score r - b)%Z)).
Proof.
  split; [reflexivity|]. split; [reflexivity|].
  intros b data changes Hb r total.
  assert (Hbase : baseScoreOf (Some (inject_Z b)) = inject_Z b).
  { apply num_or_value. intros E.
    apply Hb. unfold Qeq in E. cbn in E. lia. }
  assert (Hshift : forall k : Z,
             Js.round (inject_Z k - inject_Z b) = (k - b)%Z).
  { intros k. rewrite <- (round_int (k - b)). apply round_comp.
    unfold Zminus. rewrite inject_Z_plus, inject_Z_opp. ring. }
  unfold r, simulateScoreLocally; cbn [local_projected_score local_score_change].
  rewrite Hbase. fold total.
  split; [|split].
  - intros Hin.
    rewrite (round_comp _ _ (clamp_inside 300 850 _ Hin)).
    unfold total. rewrite round_shift. lia.
  - intros Hhi.
    assert (Hp : Js.round (Qmax 300 (Qmin 850 total)) = 850%Z).
    { rewrite (round_comp _ (Qmax 300 850)).
      - reflexivity.
      - apply Q.max_compat; [reflexivity|]. apply Q.min_l. lra. }
    rewrite Hp. split; [reflexivity|].
    rewrite <- (Hshift 850%Z). apply round_mono.
    unfold total in Hhi. change (inject_Z 850) with 850. lra.
  - intros Hlo.
    assert (Hp : Js.round (Qmax 300 (Qmin 850 total)) = 300%Z).
    { rewrite (round_comp _ 300).
      - reflexivity.
      - rewrite Q.min_r by lra. apply Q.max_l. lra. }
    rewrite Hp. split; [reflexivity|].
    rewrite <- (Hshift 300%Z). apply round_mono.
    unfold total in Hlo. change (inject_Z 300) with 300. lra.
Qed.

Lemma C3_score_change_is_unclamped_adjustment_witness :
  let r := simulateScoreLocally (Some (inject_Z 650)) Samples.struggling
                                [("loan_repayment_status", 1)] in
  300 <= inject_Z 650
         + scoreAdjustmentOf Samples.struggling [("loan_repayment_status", 1)] <= 850
  /\ local_score_change r = (local_projected_score r - 650)%Z.
Proof.
  assert (Hb : 650%Z <> 0%Z) by discriminate.
  assert (Hin : 300 <= inject_Z 650
                       + scoreAdjustmentOf Samples.struggling
                           [("loan_repayment_status", 1)] <= 850).
  { split; vm_compute; discriminate. }
  destruct C3_score_change_is_unclamped_adjustment as (_ & _ & Hd).
  destruct (Hd 650%Z Samples.struggling [("loan_repayment_status", 1)] Hb)
    as (Hinside & _ & _).
  exact (conj Hin (Hinside Hin)).
Defined.

(** C4.  The code at a current score of 880, which the 300 to 900 scale of
    the application allows: improving the repayment status from 0 to 1
    projects 850, less than the current score. *)
Theorem C4_improvement_lowers_score_above_cap :
  let r := simulateScoreLocally (Some 880) Samples.struggling
                                [("loan_repayment_status", 1)] in
  local_projected_score r = 850%Z
  /\ (local_projected_score r < 880)%Z
  /\ local_score_change r = 40%Z.
Proof. repeat split. Qed.

(** C10.  The monthly-income delta of the heuristic is
    [min(2 * (new - old) / 1000, 50)]: it never exceeds 50, and it has no
    lower bound, since for every bound some fall of a non-negative income
    gives a delta below it; only the clamp of the projected score to the
    range from 300 to 850 limits the effect. *)
Theorem C10_income_delta_capped_above_only :
  (forall (data : Beneficiary) (v : Q),
      scoreAdjustmentOf data [("monthly_income", v)]
      == Qmin (2 * ((v - Js.num_or (monthly_income data) 0) / 1000)) 50)
  /\ (forall (data : Beneficiary) (v : Q),
         scoreAdjustmentOf data [("monthly_income", v)] <= 50)
  /\ (forall B : Q, exists (data : Beneficiary) (v : Q),
         0 <= v
         /\ scoreAdjustmentOf data [("monthly_income", v)] < - B)
  /\ (forall (cs : option Q) (data : Beneficiary) (v : Q),
         (300 <= local_projected_score
                   (simulateScoreLocally cs data [("monthly_income", v)]) <= 850)%Z).
Proof.
  split; [|split; [|split]].
  - intros data v. rewrite income_adjustment.
    set (old := Js.num_or (monthly_income data) 0).
    assert (E : (v - old) / 1000 * 2 == 2 * ((v - old) / 1000)) by ring.
    rewrite E. ring.
  - intros data v. rewrite income_adjustment.
    pose proof (min_le_r ((v - Js.num_or (monthly_income data) 0) / 1000 * 2) 50).
    lra.
  - intros B.
    set (old := 500 * (Qabs B + 1)).
    exists {| loan_repayment_status := None; loan_tenure_months := None;
              electricity_bill_paid_on_time := None;
              mobile_recharge_frequency := None; is_high_need := Js.Undefined;
              age := None; monthly_income := Some old;
              employment_type := Js.Undefined |}, 0.
    split; [lra|].
    rewrite income_adjustment. cbn [monthly_income].
    pose proof (Qle_Qabs B) as HB.
    assert (Hold : ~ old == 0).
    { unfold old. pose proof (Qabs_nonneg B) as Hn. intros E. lra. }
    rewrite (num_or_value old 0 Hold).
    pose proof (min_le_l ((0 - old) / 1000 * 2) 50) as Hm.
    set (m := Qmin ((0 - old) / 1000 * 2) 50) in *.
    assert (E : (0 - old) / 1000 * 2 == - (Qabs B + 1)) by (unfold old; field).
    assert (Hm' : m <= - (Qabs B + 1)) by (rewrite <- E; exact Hm).
    lra.
  - intros cs data v. apply projected_in_range.
Qed.

End HeuristicClaims.

(** ** Improvement suggestions *)

Module SuggestionClaims.
Import Data ScoreSimulator Observe JsFacts HeuristicFacts.
Local Open Scope Q_scope.

(** At most three suggestions are returned. *)
Lemma suggestions_capped (currentData : option Beneficiary) :
  (length (getImprovementSuggestions currentData) <= 3)%nat.
Proof.
  destruct currentData as [data|]; cbn [getImprovementSuggestions length].
  - apply firstn_le_length.
  - lia.
Qed.

(** The suggestions keep the order loan, bills, recharge, employment. *)
Lemma suggestions_are_a_prefix (data : Beneficiary) :
  exists rest,
    applicableSuggestions data = (getImprovementSuggestions (Some data) ++ rest)%list.
Proof.
  exists (skipn 3 (applicableSuggestions data)).
  symmetry. apply firstn_skipn.
Qed.

Lemma zero_field (f : option Q) (d : Q) :
  Qeq_bool (Js.num_nullish f 0) 0 = true -> Js.num_or f d = d.
Proof.
  intros H. apply num_or_zero.
  destruct f as [q|]; [right | left; reflexivity].
  exists q. split; [reflexivity|]. now apply Qeq_bool_iff.
Qed.

(** Every applicable suggestion is an improvement for the heuristic: applied
    alone, it raises the score adjustment. *)
Lemma suggestions_improve (data : Beneficiary) (sg : Suggestion) :
  In sg (applicableSuggestions data) ->
  0 < scoreAdjustmentOf data [(parameter sg, value sg)].
Proof.
  unfold applicableSuggestions. rewrite !in_app_iff.
  intros [H | [H | [H | H]]].
  - destruct (Qeq_bool _ 0) eqn:E in H; [|contradiction].
    destruct H as [<- | []].
    unfold scoreAdjustmentOf, adjust; cbn.
    rewrite (zero_field _ 0 E). reflexivity.
  - destruct (Qeq_bool _ 0) eqn:E in H; [|contradiction].
    destruct H as [<- | []].
    unfold scoreAdjustmentOf, adjust; cbn.
    rewrite (zero_field _ 0 E). reflexivity.
  - destruct (Qltb _ 3) eqn:E in H; [|contradiction].
    destruct H as [<- | []].
    apply ltb_true in E.
    pose proof (num_or_0 (mobile_recharge_frequency data)) as Hn.
    assert (Hold : Js.num_or (mobile_recharge_frequency data) 0 < 4).
    { rewrite Hn. destruct (mobile_recharge_frequency data); cbn in *; lra. }
    unfold scoreAdjustmentOf, adjust; cbn.
    destruct (gtb_true 4 (Js.num_or (mobile_recharge_frequency data) 0)) as [_ G].
    rewrite (G Hold).
    destruct (ltb_false 4 (Js.num_or (mobile_recharge_frequency data) 0)) as [_ L].
    rewrite L by lra. reflexivity.
  - destruct (strictly_zero _) eqn:E in H; [|contradiction].
    destruct H as [<- | []].
    assert (Hold : Js.or_else (employment_type data) (Js.Num 0) = Js.Num 0).
    { destruct (employment_type data) as [| |b|q|s|n]; cbn in E; try discriminate;
        try reflexivity.
      unfold Js.or_else; cbn. now rewrite E. }
    unfold scoreAdjustmentOf, adjust; cbn.
    rewrite Hold. reflexivity.
Qed.

(** C8.  The code on a beneficiary to whom all four suggestions apply: the
    three returned are those on loan repayment (High), utility bills
    (Medium) and recharge frequency (Low), and the one on employment, of
    impact High and of a larger delta in the heuristic (25 against 15), is
    dropped. *)
Theorem C8_high_impact_suggestion_dropped :
  applicableSuggestions Samples.struggling
  = [suggestLoan; suggestBills; suggestRecharge; suggestEmployment]
  /\ getImprovementSuggestions (Some Samples.struggling)
     = [suggestLoan; suggestBills; suggestRecharge]
  /\ ~ In suggestEmployment (getImprovementSuggestions (Some Samples.struggling))
  /\ (impact_rank (impact suggestRecharge) < impact_rank (impact suggestEmployment))%nat
  /\ scoreAdjustmentOf Samples.struggling [("mobile_recharge_frequency", 4)]
     < scoreAdjustmentOf Samples.struggling [("employment_type", 2)].
Proof.
  split; [reflexivity|]. split; [reflexivity|]. split; [|split].
  - cbn. intros [H | [H | [H | []]]]; discriminate H.
  - cbn. lia.
  - reflexivity.
Qed.

End SuggestionClaims.

(** ** The employment-type codec *)

Module CodecClaims.
Import Data ScoreSimulator Observe HandlerFacts.
Local Open Scope Q_scope.

(** C6, as the spec has it, fails: the label "freelancer" is not in the
    table; it is sent to the backend as 0, and a simulation that the
    backend answers raises no warning and sets no error. *)
Lemma C6_counterexample :
  let w := simulate Samples.repaying (Some Samples.freelancer) (Some 650)
                    (Responded 200 Samples.answer) in
  Js.own mapping "freelancer" = None
  /\ convertEmploymentType (Js.Str "freelancer") = Js.Num 0
  /\ map (fun body => fv_employment_type (current_data body)) (requests w)
     = [Js.Num 0]
  /\ surfaced w = false.
Proof. repeat split. Qed.

(** C6, amended.  A label that is neither in the lookup table nor the name
    of a property inherited from [Object.prototype] is encoded as 0 rather
    than failing, and silently: the function returns the number alone, and
    a simulation for such a beneficiary that the backend answers sends 0 as
    employment type, logs no warning and sets no error. *)
Theorem C6_unknown_label_defaults_to_zero_silently :
  forall (label : string),
    Js.own mapping label = None ->
    Js.mem label Js.object_prototype_names = false ->
    convertEmploymentType (Js.Str label) = Js.Num 0
    /\ forall (s : SimState) (data : Beneficiary) (cs : option Q) (status : Z)
              (res : SimulationResult),
         hypotheticalChanges s <> [] ->
         employment_type data = Js.Str label ->
         let w := simulate s (Some data) cs (Responded status res) in
         map (fun body => fv_employment_type (current_data body)) (requests w)
         = [Js.Num 0]
         /\ surfaced w = false.
Proof.
  intros label Hown Hproto.
  assert (Hc : convertEmploymentType (Js.Str label) = Js.Num 0).
  { unfold convertEmploymentType, Js.get; cbn [Js.is_number Js.property_key].
    rewrite Hown, Hproto. reflexivity. }
  split; [exact Hc|].
  intros s data cs status res Hne Hemp w. unfold w.
  rewrite (simulate_answered s data cs Hne status res).
  unfold requests, surfaced, warnings; cbn.
  rewrite Hemp, Hc. split; reflexivity.
Qed.

Lemma C6_unknown_label_defaults_to_zero_silently_witness :
  let w := simulate Samples.repaying (Some Samples.freelancer) (Some 650)
                    (Responded 200 Samples.answer) in
  Js.own mapping "freelancer" = None
  /\ Js.mem "freelancer" Js.object_prototype_names = false
  /\ convertEmploymentType (Js.Str "freelancer") = Js.Num 0
  /\ surfaced w = false.
Proof.
  assert (Hne : hypotheticalChanges Samples.repaying <> []) by discriminate.
  destruct (C6_unknown_label_defaults_to_zero_silently "freelancer" eq_refl eq_refl)
    as [Hc Hrun].
  destruct (Hrun Samples.repaying Samples.freelancer (Some 650) 200%Z
                 Samples.answer Hne eq_refl) as [_ Hs].
  exact (conj eq_refl (conj eq_refl (conj Hc Hs))).
Defined.

Ltac codec_case :=
  cbn; split;
  [ auto 8
  | split;
    [ split; intros E; first [discriminate E | reflexivity | congruence]
    | reflexivity ] ].

(** C7, as the spec has it, fails: the table has a fourth label,
    "business_owner", encoded as 3, and a number is passed through
    whatever it is. *)
Lemma C7_counterexample :
  convertEmploymentType (Js.Str "business_owner") = Js.Num 3
  /\ convertEmploymentType (Js.Num 7) = Js.Num 7
  /\ ~ In (Js.Num 3) [Js.Num 0; Js.Num 1; Js.Num 2].
Proof.
  split; [reflexivity|]. split; [reflexivity|].
  cbn. intros [H | [H | [H | []]]]; discriminate H.
Qed.

(** C7, amended.  For every textual label that is not the name of a property
    inherited from [Object.prototype], the encoded value is one of 0, 1, 2
    and 3, and it is 3 exactly for "business_owner"; a numeric input is
    returned unchanged. *)
Theorem C7_encoding_domain :
  forall (label : string),
    Js.mem label Js.object_prototype_names = false ->
    In (convertEmploymentType (Js.Str label))
       [Js.Num 0; Js.Num 1; Js.Num 2; Js.Num 3]
    /\ (convertEmploymentType (Js.Str label) = Js.Num 3 <-> label = "business_owner")
    /\ forall q : Q, convertEmploymentType (Js.Num q) = Js.Num q.
Proof.
  intros label Hproto.
  unfold convertEmploymentType, Js.get, mapping;
    cbn [Js.is_number Js.property_key Js.own].
  destruct (String.eqb_spec "unemployed" label) as [<-|N0]; [codec_case|].
  destruct (String.eqb_spec "self_employed" label) as [<-|N1]; [codec_case|].
  destruct (String.eqb_spec "salaried" label) as [<-|N2]; [codec_case|].
  destruct (String.eqb_spec "business_owner" label) as [<-|N3]; [codec_case|].
  rewrite Hproto. codec_case.
Qed.

Lemma C7_encoding_domain_witness :
  Js.mem "salaried" Js.object_prototype_names = false
  /\ In (convertEmploymentType (Js.Str "salaried"))
        [Js.Num 0; Js.Num 1; Js.Num 2; Js.Num 3].
Proof.
  destruct (C7_encoding_domain "salaried" eq_refl) as [Hin _].
  exact (conj eq_refl Hin).
Defined.

End CodecClaims.

(** ** The risk/need matrix *)

Module MatrixClaims.
Import RiskMatrix.
Local Open Scope Q_scope.


(** The cells of the table have pairwise different (risk, need) pairs. *)
Lemma cell_unique (c1 c2 : Category) :
  In c1 matrixCategories -> In c2 matrixCategories ->
  risk c1 = risk c2 -> need c1 = need c2 -> c1 = c2.
Proof.
  cbn. intros H1 H2.
  repeat (destruct H1 as [<- | H1]); try contradiction;
    repeat (destruct H2 as [<- | H2]); try contradiction;
    cbn; intros Hr Hn; first [reflexivity | discriminate Hr | discriminate Hn].
Qed.




End MatrixClaims.

(** * Further properties of the code *)

(** ** Strings *)

Module TextFacts.
Import Text.

Lemma prefix_head (n c : ascii) (rest s : string) :
  c <> n -> String.prefix (String n rest) (String c s) = false.
Proof.
  intros H. cbn. destruct (Ascii.ascii_dec n c) as [E | _]; [congruence | reflexivity].
Qed.

(** A needle cannot start at a character other than its first one. *)
Lemma includes_skip (n c : ascii) (rest s : string) :
  c <> n -> Js.includes (String n rest) (String c s) = Js.includes (String n rest) s.
Proof.
  intros H. cbn [Js.includes]. now rewrite (prefix_head n c rest s H).
Qed.

Lemma lacks_cons (c x : ascii) (s : string) :
  lacks c (String x s) = true -> x <> c /\ lacks c s = true.
Proof.
  cbn. intros H. apply andb_true_iff in H. destruct H as [H1 H2].
  split; [|exact H2]. apply negb_true_iff in H1. now apply Ascii.eqb_neq.
Qed.

(** Text before which the first character of the needle never occurs can be
    dropped from the search. *)
Lemma includes_after (n : ascii) (rest p s : string) :
  lacks n p = true ->
  Js.includes (String n rest) (p ++ s) = Js.includes (String n rest) s.
Proof.
  induction p as [|c p IH]; intros H; [reflexivity|].
  apply lacks_cons in H. destruct H as [Hc Hp].
  change (String c p ++ s) with (String c (p ++ s)).
  rewrite includes_skip by exact Hc. apply IH. exact Hp.
Qed.

Lemma lacks_app (c : ascii) (a b : string) :
  lacks c (a ++ b) = (lacks c a && lacks c b)%bool.
Proof.
  induction a as [|x a IH]; cbn; [reflexivity|].
  rewrite IH. now rewrite andb_assoc.
Qed.

Lemma digits_lack_N (d : Decimal.uint) :
  lacks "N" (NilEmpty.string_of_uint d) = true.
Proof. induction d; cbn; auto. Qed.

(** A printed integer has no capital N in it. *)
Lemma show_int_lacks_N (z : Z) : lacks "N" (Js.show_int z) = true.
Proof.
  unfold Js.show_int, NilZero.string_of_int, NilZero.string_of_uint.
  destruct (Z.to_int z) as [d | d]; destruct d; cbn; auto using digits_lack_N.
Qed.

Lemma append_assoc (a b c : string) : ((a ++ b) ++ c = a ++ (b ++ c))%string.
Proof. induction a as [|x a IH]; cbn; [reflexivity | now rewrite IH]. Qed.

Lemma append_nil_r (a : string) : (a ++ "" = a)%string.
Proof. induction a as [|x a IH]; cbn; [reflexivity | now rewrite IH]. Qed.

End TextFacts.

(** ** api.js: which failures count as connection issues *)

Module ApiFacts.
Import Data ScoreSimulator Text TextFacts.

Lemma connection_issue_after (p m : string) :
  lacks "N" p = true ->
  isConnectionIssue (p ++ m) = isConnectionIssue m.
Proof.
  intros H. unfold isConnectionIssue.
  rewrite !(includes_after "N" _ p m H). reflexivity.
Qed.

(** X1.  Whether a failed request is treated as a connection issue depends
    only on the text that came with the failure: an unanswered request always
    is one; an HTTP error is one exactly when the [detail] the server sent
    contains one of the two phrases, whatever the status code, and never when
    there is no detail; an error in setting up the request is one exactly
    when the message of axios contains one of the phrases. *)
Theorem connection_issue_depends_on_text_only :
  isConnectionIssue (Api.failure_message NoResponse) = true
  /\ (forall status : Z,
         isConnectionIssue (Api.failure_message (HttpError status None)) = false)
  /\ (forall (status : Z) (detail : string),
         isConnectionIssue (Api.failure_message (HttpError status (Some detail)))
         = isConnectionIssue detail)
  /\ (forall message : string,
         isConnectionIssue (Api.failure_message (SetupError message))
         = isConnectionIssue message).
Proof.
  assert (Hhttp : forall status m,
             isConnectionIssue
               ("Failed to simulate score: " ++ (Js.show_int status ++ ": " ++ m))
             = isConnectionIssue m).
  { intros status m.
    rewrite connection_issue_after by reflexivity.
    rewrite connection_issue_after by apply show_int_lacks_N.
    apply connection_issue_after. reflexivity. }
  split; [reflexivity|]. split; [|split].
  - intros status. unfold Api.failure_message, Api.interceptor_message.
    rewrite Hhttp. reflexivity.
  - intros status detail. unfold Api.failure_message, Api.interceptor_message.
    rewrite Hhttp. destruct (String.eqb_spec detail "") as [-> | _]; reflexivity.
  - intros message. unfold Api.failure_message, Api.interceptor_message.
    rewrite connection_issue_after by reflexivity.
    apply connection_issue_after. reflexivity.
Qed.

End ApiFacts.

(** ** simulateScoreLocally: how the changes add up *)

Module HeuristicMore.
Import Data ScoreSimulator SimulatorParts JsFacts HeuristicFacts.
Local Open Scope Q_scope.

Ltac split_ifs :=
  repeat match goal with
         | |- context [if ?b then _ else _] => destruct b eqn:?
         end.

(** One pass of the loop adds the contribution of its entry. *)
Lemma adjust_delta (data : Beneficiary) (a : Q) (entry : string * Q) :
  adjust data a entry == a + delta data entry.
Proof.
  destruct entry as [key v]. unfold delta, adjust. cbv zeta.
  split_ifs; ring.
Qed.

Lemma fold_adjust (data : Beneficiary) (l : list (string * Q)) (a : Q) :
  fold_left (adjust data) l a == a + scoreAdjustmentOf data l.
Proof.
  unfold scoreAdjustmentOf. revert a.
  induction l as [|e l IH]; intros a; cbn [fold_left].
  - ring.
  - rewrite (IH (adjust data a e)), (IH (adjust data 0 e)).
    rewrite (adjust_delta data a e), (adjust_delta data 0 e). ring.
Qed.

Lemma adjustment_cons (data : Beneficiary) (e : string * Q) (l : list (string * Q)) :
  scoreAdjustmentOf data (e :: l) == delta data e + scoreAdjustmentOf data l.
Proof.
  unfold scoreAdjustmentOf at 1. cbn [fold_left].
  rewrite fold_adjust, adjust_delta. ring.
Qed.

Lemma adjustment_app (data : Beneficiary) (l1 l2 : list (string * Q)) :
  scoreAdjustmentOf data (l1 ++ l2)
  == scoreAdjustmentOf data l1 + scoreAdjustmentOf data l2.
Proof.
  induction l1 as [|e l1 IH]; cbn [app].
  - unfold scoreAdjustmentOf at 2. cbn. ring.
  - rewrite !adjustment_cons, IH. ring.
Qed.

Lemma adjustment_perm (data : Beneficiary) (l1 l2 : list (string * Q)) :
  Permutation l1 l2 -> scoreAdjustmentOf data l1 == scoreAdjustmentOf data l2.
Proof.
  induction 1 as [| e l l' _ IH | e1 e2 l | l l' l'' _ IH1 _ IH2].
  - reflexivity.
  - rewrite !adjustment_cons, IH. reflexivity.
  - rewrite !adjustment_cons. ring.
  - now rewrite IH1.
Qed.

(** The result depends on the adjustment only up to equality of numbers. *)
Lemma result_of_adjustment (cs : option Q) (data : Beneficiary)
    (l1 l2 : list (string * Q)) :
  scoreAdjustmentOf data l1 == scoreAdjustmentOf data l2 ->
  local_projected_score (simulateScoreLocally cs data l1)
  = local_projected_score (simulateScoreLocally cs data l2)
  /\ local_score_change (simulateScoreLocally cs data l1)
     = local_score_change (simulateScoreLocally cs data l2).
Proof.
  intros E. unfold simulateScoreLocally; cbn [local_projected_score local_score_change].
  split; apply round_comp; [|exact E].
  apply Q.max_compat; [reflexivity|].
  apply Q.min_compat; [reflexivity|]. now rewrite E.
Qed.

(** X2.  The order in which the changes were entered plays no part: two
    change sets with the same entries give the same projected score and the
    same score change; and the adjustment of two change sets put one after
    the other is the sum of their adjustments. *)
Theorem order_of_changes_is_irrelevant :
  (forall (cs : option Q) (data : Beneficiary) (l1 l2 : list (string * Q)),
      Permutation l1 l2 ->
      local_projected_score (simulateScoreLocally cs data l1)
      = local_projected_score (simulateScoreLocally cs data l2)
      /\ local_score_change (simulateScoreLocally cs data l1)
         = local_score_change (simulateScoreLocally cs data l2))
  /\ (forall (data : Beneficiary) (l1 l2 : list (string * Q)),
         scoreAdjustmentOf data (l1 ++ l2)
         == scoreAdjustmentOf data l1 + scoreAdjustmentOf data l2).
Proof.
  split.
  - intros cs data l1 l2 P.
    exact (result_of_adjustment cs data l1 l2 (adjustment_perm data l1 l2 P)).
  - exact adjustment_app.
Qed.

Lemma order_of_changes_is_irrelevant_witness :
  Permutation [("monthly_income", 12000); ("loan_repayment_status", 1)]
              [("loan_repayment_status", 1); ("monthly_income", 12000)]
  /\ local_projected_score
       (simulateScoreLocally (Some 650) Samples.struggling
          [("monthly_income", 12000); ("loan_repayment_status", 1)])
     = local_projected_score
         (simulateScoreLocally (Some 650) Samples.struggling
            [("loan_repayment_status", 1); ("monthly_income", 12000)]).
Proof.
  assert (P : Permutation [("monthly_income", 12000); ("loan_repayment_status", 1)]
                          [("loan_repayment_status", 1); ("monthly_income", 12000)])
    by apply perm_swap.
  destruct order_of_changes_is_irrelevant as [Hperm _].
  destruct (Hperm (Some 650) Samples.struggling _ _ P) as [Hp _].
  exact (conj P Hp).
Defined.

Lemma unknown_key_step (data : Beneficiary) (a : Q) (key : string) (v : Q) :
  ~ In key heuristic_keys -> adjust data a (key, v) = a.
Proof.
  intros H. unfold adjust.
  repeat match goal with
         | |- context [?k =? ?lit] =>
             destruct (String.eqb_spec k lit) as [-> | _];
             [exfalso; apply H; cbn; tauto|]
         end.
  reflexivity.
Qed.

(** X3.  Changes to fields the heuristic has no case for (such as [age] and
    [is_high_need], which the form accepts) are ignored: a change set made of
    such entries only gives the result of the empty change set, a score change
    of 0. *)
Theorem changes_to_other_fields_are_ignored :
  forall (cs : option Q) (data : Beneficiary) (changes : list (string * Q)),
    (forall key v, In (key, v) changes -> ~ In key heuristic_keys) ->
    simulateScoreLocally cs data changes = simulateScoreLocally cs data []
    /\ local_score_change (simulateScoreLocally cs data changes) = 0%Z.
Proof.
  intros cs data changes H.
  assert (E : scoreAdjustmentOf data changes = 0).
  { unfold scoreAdjustmentOf. generalize 0.
    induction changes as [|[key v] rest IH]; intros a; cbn [fold_left]; [reflexivity|].
    rewrite unknown_key_step by (apply (H key v); left; reflexivity).
    apply IH. intros k w Hin. apply (H k w). right. exact Hin. }
  unfold simulateScoreLocally. rewrite E. split; reflexivity.
Qed.

Lemma changes_to_other_fields_are_ignored_witness :
  local_score_change
    (simulateScoreLocally (Some 650) Samples.struggling
       [("age", 40); ("is_high_need", 0)]) = 0%Z.
Proof.
  assert (H : forall key v, In (key, v) [("age", 40); ("is_high_need", 0)] ->
                            ~ In key heuristic_keys).
  { intros key v [E | [E | []]]; injection E as <- _; cbn;
      intros [F | [F | [F | [F | [F | [F | []]]]]]]; discriminate F. }
  destruct (changes_to_other_fields_are_ignored
              (Some 650) Samples.struggling [("age", 40); ("is_high_need", 0)] H)
    as [_ Hc].
  exact Hc.
Defined.

End HeuristicMore.

(** ** simulateScoreLocally: bounds *)

Module HeuristicBounds.
Import Data ScoreSimulator SimulatorParts JsFacts HeuristicFacts HeuristicMore.
Local Open Scope Q_scope.

Lemma gain_cap_nonneg (key : string) : 0 <= gain_cap key.
Proof. unfold gain_cap. split_ifs; lra. Qed.

(** No entry adds more than the cap of its key. *)
Lemma delta_le_cap (data : Beneficiary) (key : string) (v : Q) :
  delta data (key, v) <= gain_cap key.
Proof.
  unfold delta, adjust, gain_cap. cbv zeta.
  destruct (key =? "monthly_income").
  { pose proof (min_le_r ((v - Js.num_or (monthly_income data) 0) / 1000 * 2) 50).
    lra. }
  split_ifs; lra.
Qed.

Lemma total_gain_nonneg (keys : list string) : 0 <= total_gain keys.
Proof.
  unfold total_gain.
  induction keys as [|k keys IH]; cbn [fold_right]; [lra|].
  pose proof (gain_cap_nonneg k). lra.
Qed.

Lemma nodup_remove (k : string) (keys : list string) :
  NoDup keys -> NoDup (remove string_dec k keys).
Proof.
  induction keys as [|x keys IH]; cbn; intros H; [constructor|].
  inversion H as [|? ? Hx Hrest]; subst.
  destruct (string_dec k x) as [_ | N]; [apply IH; exact Hrest|].
  constructor; [|apply IH; exact Hrest].
  intros Hin. apply in_remove in Hin. tauto.
Qed.

Lemma total_gain_remove (k : string) (keys : list string) :
  NoDup keys -> In k keys ->
  total_gain keys == gain_cap k + total_gain (remove string_dec k keys).
Proof.
  unfold total_gain.
  induction keys as [|x keys IH]; cbn [fold_right remove In]; intros Hnd Hin;
    [contradiction|].
  inversion Hnd as [|? ? Hx Hrest]; subst.
  destruct (string_dec k x) as [-> | N].
  - rewrite notin_remove by exact Hx. reflexivity.
  - destruct Hin as [E | Hin]; [congruence|].
    cbn [fold_right]. rewrite (IH Hrest Hin). ring.
Qed.

(** Changes with pairwise different keys gain at most the caps of the keys
    they can draw on. *)
Lemma adjustment_within_budget (data : Beneficiary) (l : list (string * Q)) :
  NoDup (map fst l) ->
  forall budget : list string,
    NoDup budget ->
    (forall e, In e l -> 0 < gain_cap (fst e) -> In (fst e) budget) ->
    scoreAdjustmentOf data l <= total_gain budget.
Proof.
  induction l as [|[k v] l IH]; intros Hnd budget Hb Hcover.
  - unfold scoreAdjustmentOf; cbn. apply total_gain_nonneg.
  - cbn in Hnd. inversion Hnd as [|? ? Hk Hrest]; subst.
    rewrite adjustment_cons.
    pose proof (delta_le_cap data k v) as Hd.
    destruct (in_dec string_dec k budget) as [Hin | Hout].
    + rewrite (total_gain_remove k budget Hb Hin).
      assert (Hl : scoreAdjustmentOf data l <= total_gain (remove string_dec k budget)).
      { apply IH; [exact Hrest | apply nodup_remove; exact Hb |].
        intros e He Hpos. apply in_in_remove.
        - intros E. apply Hk. rewrite <- E. apply in_map. exact He.
        - apply Hcover; [right; exact He | exact Hpos]. }
      lra.
    + assert (Hz : gain_cap k <= 0).
      { apply Qnot_lt_le. intros Hpos. apply Hout.
        apply (Hcover (k, v)); [left; reflexivity | exact Hpos]. }
      assert (Hl : scoreAdjustmentOf data l <= total_gain budget).
      { apply IH; [exact Hrest | exact Hb |].
        intros e He Hpos. apply Hcover; [right; exact He | exact Hpos]. }
      lra.
Qed.

Lemma positive_cap_is_known (key : string) :
  0 < gain_cap key -> In key heuristic_keys.
Proof.
  unfold gain_cap, heuristic_keys.
  repeat match goal with
         | |- context [?k =? ?lit] =>
             destruct (String.eqb_spec k lit) as [-> | _]; [intros _; cbn; tauto|]
         end.
  intros H. lra.
Qed.

Lemma heuristic_keys_nodup : NoDup heuristic_keys.
Proof.
  unfold heuristic_keys.
  repeat (constructor;
          [cbn; intros F;
           repeat (destruct F as [F | F]; [discriminate F|]); exact F|]).
  constructor.
Qed.

Lemma adjustment_at_most_170 (data : Beneficiary) (changes : list (string * Q)) :
  NoDup (map fst changes) -> scoreAdjustmentOf data changes <= 170.
Proof.
  intros Hnd.
  pose proof (adjustment_within_budget data changes Hnd heuristic_keys
                heuristic_keys_nodup) as Hb.
  assert (Ht : total_gain heuristic_keys == 170) by reflexivity.
  rewrite <- Ht. apply Hb.
  intros e _ Hpos. apply positive_cap_is_known. exact Hpos.
Qed.

Lemma change_at_most_170 (cs : option Q) (data : Beneficiary)
    (changes : list (string * Q)) :
  NoDup (map fst changes) ->
  (local_score_change (simulateScoreLocally cs data changes) <= 170)%Z.
Proof.
  intros Hnd. unfold simulateScoreLocally; cbn [local_score_change].
  rewrite <- (round_int 170). apply round_mono.
  apply adjustment_at_most_170. exact Hnd.
Qed.

(** X4.  Whatever the current data and the values entered, a change set with
    pairwise different keys raises the score by at most 170 points (50 for
    income, 25 for employment, 40 for repayment, 30 for bills, 15 for
    recharges, 10 for tenure), and the projected score stays within 300 and
    850 in every case. *)
Theorem gain_is_at_most_170 :
  forall (cs : option Q) (data : Beneficiary) (changes : list (string * Q)),
    NoDup (map fst changes) ->
    scoreAdjustmentOf data changes <= 170
    /\ (local_score_change (simulateScoreLocally cs data changes) <= 170)%Z
    /\ (300 <= local_projected_score (simulateScoreLocally cs data changes) <= 850)%Z.
Proof.
  intros cs data changes Hnd.
  split; [apply adjustment_at_most_170; exact Hnd|].
  split; [apply change_at_most_170; exact Hnd | apply projected_in_range].
Qed.

Lemma gain_is_at_most_170_witness :
  let r := simulateScoreLocally (Some 650) Samples.struggling
             [("monthly_income", 90000); ("loan_repayment_status", 1)] in
  NoDup (map fst [("monthly_income", 90000); ("loan_repayment_status", 1)])
  /\ (local_score_change r <= 170)%Z.
Proof.
  assert (Hnd : NoDup (map fst [("monthly_income", 90000); ("loan_repayment_status", 1)])).
  { cbn. constructor; [intros [F | []]; discriminate F|].
    constructor; [intros []|constructor]. }
  destruct (gain_is_at_most_170 (Some 650) Samples.struggling _ Hnd) as (_ & Hc & _).
  exact (conj Hnd Hc).
Defined.

(** X5.  For a current score that is an integer between 300 and 850, the
    projected score moves in the direction of the adjustment and by no more
    than the score change reported: clamping can shorten the move, never
    reverse or lengthen it. *)
Theorem projection_follows_the_change :
  forall (b : Z) (data : Beneficiary) (changes : list (string * Q)),
    (300 <= b <= 850)%Z ->
    let r := simulateScoreLocally (Some (inject_Z b)) data changes in
    (0 <= scoreAdjustmentOf data changes ->
     (b <= local_projected_score r <= b + local_score_change r)%Z)
    /\ (scoreAdjustmentOf data changes <= 0 ->
        (b + local_score_change r <= local_projected_score r <= b)%Z).
Proof.
  intros b data changes Hb r.
  set (a := scoreAdjustmentOf data changes).
  assert (Hbase : baseScoreOf (Some (inject_Z b)) = inject_Z b).
  { apply num_or_value. intros E. unfold Qeq in E. cbn in E. lia. }
  assert (Hlo : 300 <= inject_Z b).
  { change 300 with (inject_Z 300). rewrite <- Zle_Qle. lia. }
  assert (Hhi : inject_Z b <= 850).
  { change 850 with (inject_Z 850). rewrite <- Zle_Qle. lia. }
  unfold r, simulateScoreLocally; cbn [local_projected_score local_score_change].
  rewrite Hbase. fold a.
  set (x := Qmax 300 (Qmin 850 (inject_Z b + a))).
  split; intros Ha.
  - assert (Hx : inject_Z b <= x <= inject_Z b + a).
    { unfold x. split.
      - eapply Qle_trans; [|apply Q.le_max_r]. apply Q.min_glb; lra.
      - apply Q.max_lub; [lra|]. apply Q.le_min_r. }
    destruct Hx as [Hx1 Hx2]. split.
    + rewrite <- (round_int b) at 1. apply round_mono. exact Hx1.
    + rewrite <- round_shift. apply round_mono. exact Hx2.
  - assert (Hx : inject_Z b + a <= x <= inject_Z b).
    { unfold x. split.
      - destruct (Q.min_spec 850 (inject_Z b + a)) as [[Hlt Hm] | [Hle Hm]].
        + lra.
        + rewrite Hm. apply Q.le_max_r.
      - apply Q.max_lub; [exact Hlo|].
        eapply Qle_trans; [apply Q.le_min_r|]. lra. }
    destruct Hx as [Hx1 Hx2]. split.
    + rewrite <- round_shift. apply round_mono. exact Hx1.
    + rewrite <- (round_int b) at 1. apply round_mono. exact Hx2.
Qed.

Lemma projection_follows_the_change_witness :
  let r := simulateScoreLocally (Some (inject_Z 840)) Samples.struggling
                                [("loan_repayment_status", 1)] in
  (300 <= 840 <= 850)%Z
  /\ (840 <= local_projected_score r <= 840 + local_score_change r)%Z.
Proof.
  assert (Hb : (300 <= 840 <= 850)%Z) by lia.
  destruct (projection_follows_the_change
              840%Z Samples.struggling [("loan_repayment_status", 1)] Hb)
    as [Hup _].
  assert (Ha : 0 <= scoreAdjustmentOf Samples.struggling [("loan_repayment_status", 1)]).
  { vm_compute. discriminate. }
  exact (conj Hb (Hup Ha)).
Defined.

(** X6.  A beneficiary whose record has no credit score, or the score 0, is
    handed to the simulator with the score 0, and the heuristic then projects
    from 650: for every change set the result is the one for a current score
    of 650. *)
Theorem missing_score_projects_from_650 :
  forall (credit_score : option Q) (data : Beneficiary) (changes : list (string * Q)),
    Observe.reads_as_zero credit_score ->
    simulateScoreLocally (Some (Dashboard.currentScore credit_score)) data changes
    = simulateScoreLocally (Some 650) data changes
    /\ simulateScoreLocally None data changes
       = simulateScoreLocally (Some 650) data changes.
Proof.
  intros credit_score data changes H.
  unfold Dashboard.currentScore.
  rewrite (reads_as_zero_num_or credit_score 0 H). split; reflexivity.
Qed.

Lemma missing_score_projects_from_650_witness :
  Observe.reads_as_zero None
  /\ local_projected_score
       (simulateScoreLocally (Some (Dashboard.currentScore None)) Samples.struggling
          [("loan_repayment_status", 1)]) = 690%Z.
Proof.
  destruct (missing_score_projects_from_650
              None Samples.struggling [("loan_repayment_status", 1)] I) as [H _].
  split; [exact I|]. rewrite H. reflexivity.
Defined.

End HeuristicBounds.

(** ** handleParameterChange: building the change set *)

Module FormFacts.
Import Data Eff ScoreSimulator SimulatorParts Text Observe JsFacts HandlerFacts.
Local Open Scope Q_scope.

#[local] Arguments String.eqb : simpl never.
#[local] Arguments set_key : simpl never.
#[local] Arguments inject_Z : simpl never.

Lemma change_of_set_same (key : string) (v : Q) (obj : list (string * Q)) :
  change_of key (set_key key v obj) = Some v.
Proof.
  induction obj as [|[k old] rest IH]; unfold set_key; fold set_key; cbn [change_of].
  - now rewrite String.eqb_refl.
  - destruct (String.eqb_spec k key) as [-> | N]; cbn [change_of].
    + now rewrite String.eqb_refl.
    + destruct (String.eqb_spec k key) as [E | _]; [congruence | exact IH].
Qed.

Lemma change_of_set_other (key other : string) (v : Q) (obj : list (string * Q)) :
  other <> key -> change_of other (set_key key v obj) = change_of other obj.
Proof.
  intros N.
  induction obj as [|[k old] rest IH]; unfold set_key; fold set_key; cbn [change_of].
  - destruct (String.eqb_spec key other) as [E | _]; [congruence | reflexivity].
  - destruct (String.eqb_spec k key) as [-> | Nk]; cbn [change_of].
    + destruct (String.eqb_spec key other) as [E | _]; [congruence | reflexivity].
    + destruct (String.eqb_spec k other); [reflexivity | exact IH].
Qed.

Lemma set_key_forall (P : string * Q -> Prop) (key : string) (v : Q)
    (obj : list (string * Q)) :
  P (key, v) -> Forall P obj -> Forall P (set_key key v obj).
Proof.
  intros Hp. induction 1 as [|[k old] rest Hk Hrest IH]; unfold set_key; fold set_key.
  - constructor; [exact Hp | constructor].
  - destruct (String.eqb_spec k key) as [-> | N]; constructor; auto.
Qed.

(** The three range checks pass exactly on the entries in range. *)
Lemma guards (parameter : string) (v : Z) :
  ((parameter =? "mobile_recharge_frequency") && ((v <? 1)%Z || (4 <? v)%Z)
   || (parameter =? "monthly_income") && (v <? 0)%Z
   || (parameter =? "age") && ((v <? 18)%Z || (65 <? v)%Z))%bool = false
  <-> entry_in_range (parameter, inject_Z v).
Proof.
  unfold entry_in_range.
  change 1 with (inject_Z 1). change 4 with (inject_Z 4). change 0 with (inject_Z 0).
  change 18 with (inject_Z 18). change 65 with (inject_Z 65).
  rewrite <- !Zle_Qle.
  destruct (String.eqb_spec parameter "mobile_recharge_frequency") as [-> | N1];
    [|destruct (String.eqb_spec parameter "monthly_income") as [-> | N2];
      [|destruct (String.eqb_spec parameter "age") as [-> | N3]]];
    cbn [andb orb];
    repeat match goal with
           | |- context [String.eqb ?a ?b] =>
               destruct (String.eqb_spec a b) as [E | _]; [discriminate E|]
           end;
    cbn [andb orb];
    destruct (Z.ltb_spec v 1), (Z.ltb_spec 4 v), (Z.ltb_spec v 0),
             (Z.ltb_spec v 18), (Z.ltb_spec 65 v);
    cbn [andb orb]; split; try discriminate; try lia;
    try (intros _; repeat split; intros; try lia; congruence);
    try (intros (G1 & G2 & G3); try specialize (G1 eq_refl);
         try specialize (G2 eq_refl); try specialize (G3 eq_refl); lia).
Qed.

(** What [handleParameterChange] does, by the outcome of the checks. *)
Lemma edit_accepted (s : SimState) (parameter : string) (v : Z) :
  entry_in_range (parameter, inject_Z v) ->
  run (handleParameterChange parameter v) s =
  {| ui := {| hypotheticalChanges := set_key parameter (inject_Z v) (hypotheticalChanges s);
              projectedScore := projectedScore s;
              scoreChange := scoreChange s;
              explanationText := explanationText s;
              loading := loading s;
              error := None;
              chartData := chartData s |};
     trace := [] |}.
Proof.
  intros H. apply guards in H.
  apply orb_false_iff in H. destruct H as [H H3].
  apply orb_false_iff in H. destruct H as [H1 H2].
  unfold run, handleParameterChange. rewrite H1, H2, H3. reflexivity.
Qed.

Lemma edit_rejected (s : SimState) (parameter : string) (v : Z) :
  ~ entry_in_range (parameter, inject_Z v) ->
  exists message : string,
    run (handleParameterChange parameter v) s =
    {| ui := {| hypotheticalChanges := hypotheticalChanges s;
                projectedScore := projectedScore s;
                scoreChange := scoreChange s;
                explanationText := explanationText s;
                loading := loading s;
                error := Some message;
                chartData := chartData s |};
       trace := [] |}.
Proof.
  intros H. rewrite <- guards in H. apply not_false_is_true in H.
  unfold run, handleParameterChange.
  destruct ((parameter =? "mobile_recharge_frequency") && ((v <? 1)%Z || (4 <? v)%Z))%bool;
    [eexists; reflexivity|].
  destruct ((parameter =? "monthly_income") && (v <? 0)%Z)%bool;
    [eexists; reflexivity|].
  destruct ((parameter =? "age") && ((v <? 18)%Z || (65 <? v)%Z))%bool;
    [eexists; reflexivity|].
  discriminate H.
Qed.

End FormFacts.

(** ** The form: edits, suggestions and clicks *)

Module FormProperties.
Import Data Eff ScoreSimulator SimulatorParts Text Observe JsFacts HandlerFacts
       HeuristicFacts FormFacts MonadNotation.
Local Open Scope monad_scope.
Local Open Scope Q_scope.

(** X7.  An edit within the ranges of the form is stored: afterwards the
    change set holds the new value under the parameter, every other
    parameter keeps the value it had, the error is cleared and nothing else
    of the state changes: not the results shown, the chart or the loading
    flag; nothing is logged or sent. *)
Theorem accepted_edit_is_stored :
  forall (s : SimState) (parameter : string) (v : Z),
    entry_in_range (parameter, inject_Z v) ->
    let w := run (handleParameterChange parameter v) s in
    change_of parameter (hypotheticalChanges (ui w)) = Some (inject_Z v)
    /\ (forall other, other <> parameter ->
          change_of other (hypotheticalChanges (ui w))
          = change_of other (hypotheticalChanges s))
    /\ error (ui w) = None
    /\ projectedScore (ui w) = projectedScore s
    /\ scoreChange (ui w) = scoreChange s
    /\ explanationText (ui w) = explanationText s
    /\ loading (ui w) = loading s
    /\ chartData (ui w) = chartData s
    /\ trace w = [].
Proof.
  intros s parameter v H w. unfold w. rewrite (edit_accepted s parameter v H).
  cbn [ui trace hypotheticalChanges error projectedScore scoreChange explanationText
       loading chartData].
  split; [apply change_of_set_same|]. split; [|repeat split].
  intros other N. apply change_of_set_other. exact N.
Qed.

Lemma accepted_edit_is_stored_witness :
  let w := run (handleParameterChange "monthly_income" 20000) Samples.repaying in
  entry_in_range ("monthly_income", inject_Z 20000)
  /\ change_of "monthly_income" (hypotheticalChanges (ui w)) = Some (inject_Z 20000)
  /\ change_of "loan_repayment_status" (hypotheticalChanges (ui w)) = Some 1.
Proof.
  assert (H : entry_in_range ("monthly_income", inject_Z 20000)).
  { split; [intros E; discriminate E|].
    split; [intros _; vm_compute; discriminate | intros E; discriminate E]. }
  destruct (accepted_edit_is_stored Samples.repaying "monthly_income" 20000%Z H)
    as (Hs & Ho & _).
  split; [exact H|]. split; [exact Hs|].
  rewrite (Ho "loan_repayment_status"); [reflexivity | discriminate].
Defined.

(** X8.  An edit outside the ranges (a recharge frequency outside 1 to 4, a
    negative income, an age outside 18 to 65) is refused: an error message is
    set and the change set, like the rest of the state (results, chart,
    loading flag), is left as it was. *)
Theorem rejected_edit_changes_nothing :
  forall (s : SimState) (parameter : string) (v : Z),
    ~ entry_in_range (parameter, inject_Z v) ->
    let w := run (handleParameterChange parameter v) s in
    error (ui w) <> None
    /\ hypotheticalChanges (ui w) = hypotheticalChanges s
    /\ projectedScore (ui w) = projectedScore s
    /\ scoreChange (ui w) = scoreChange s
    /\ explanationText (ui w) = explanationText s
    /\ chartData (ui w) = chartData s
    /\ loading (ui w) = loading s.
Proof.
  intros s parameter v H w. unfold w.
  destruct (edit_rejected s parameter v H) as [message ->].
  cbn. repeat split. discriminate.
Qed.

Lemma rejected_edit_changes_nothing_witness :
  let w := run (handleParameterChange "mobile_recharge_frequency" 5) Samples.repaying in
  ~ entry_in_range ("mobile_recharge_frequency", inject_Z 5)
  /\ error (ui w) <> None
  /\ hypotheticalChanges (ui w) = hypotheticalChanges Samples.repaying.
Proof.
  assert (H : ~ entry_in_range ("mobile_recharge_frequency", inject_Z 5)).
  { intros (H1 & _). destruct (H1 eq_refl) as [_ H4]. vm_compute in H4.
    apply H4. reflexivity. }
  destruct (rejected_edit_changes_nothing
              Samples.repaying "mobile_recharge_frequency" 5%Z H) as (He & Hc & _).
  exact (conj H (conj He Hc)).
Defined.

(** The state of the form is well formed: no key twice, every entry within
    the ranges. *)
Lemma edit_keeps_wellformed (w : World) (parameter : string) (v : Z) :
  NoDup (map fst (hypotheticalChanges (ui w))) ->
  Forall entry_in_range (hypotheticalChanges (ui w)) ->
  let w' := snd (runState (handleParameterChange parameter v) w) in
  NoDup (map fst (hypotheticalChanges (ui w')))
  /\ Forall entry_in_range (hypotheticalChanges (ui w')).
Proof.
  intros Hnd Hall.
  unfold handleParameterChange.
  destruct (((parameter =? "mobile_recharge_frequency")%string
             && ((v <? 1)%Z || (4 <? v)%Z))%bool) eqn:G1; [cbn; auto|].
  destruct (((parameter =? "monthly_income")%string && (v <? 0)%Z)%bool) eqn:G2;
    [cbn; auto|].
  destruct (((parameter =? "age")%string && ((v <? 18)%Z || (65 <? v)%Z))%bool) eqn:G3;
    [cbn; auto|].
  assert (Hin : entry_in_range (parameter, inject_Z v)).
  { apply guards. rewrite G1, G2, G3. reflexivity. }
  cbn. split.
  - apply set_key_nodup. exact Hnd.
  - apply set_key_forall; assumption.
Qed.

Lemma edits_keep_wellformed (edits : list (string * Z)) :
  forall w : World,
    NoDup (map fst (hypotheticalChanges (ui w))) ->
    Forall entry_in_range (hypotheticalChanges (ui w)) ->
    let w' := snd (runState (editAll edits) w) in
    NoDup (map fst (hypotheticalChanges (ui w')))
    /\ Forall entry_in_range (hypotheticalChanges (ui w')).
Proof.
  induction edits as [|[parameter v] rest IH]; intros w Hnd Hall.
  - cbn. auto.
  - cbn [editAll].
    destruct (edit_keeps_wellformed w parameter v Hnd Hall) as [Hnd' Hall'].
    specialize (IH _ Hnd' Hall').
    cbn. destruct (runState (handleParameterChange parameter v) w) as [u w1].
    exact IH.
Qed.

(** X9.  Whatever series of edits the user makes, starting from the empty
    form, the change set never holds a key twice and every entry of it is
    within the ranges of the form; so the local heuristic, run on it, reports
    a score change of at most 170. *)
Theorem edits_keep_the_change_set_well_formed :
  forall (edits : list (string * Z)) (cs : option Q) (data : Beneficiary),
    let changes := hypotheticalChanges (ui (run (editAll edits) Data.initial)) in
    NoDup (map fst changes)
    /\ Forall entry_in_range changes
    /\ (local_score_change (simulateScoreLocally cs data changes) <= 170)%Z.
Proof.
  intros edits cs data changes.
  assert (Hnd0 : NoDup (map fst (hypotheticalChanges Data.initial))) by constructor.
  assert (Hall0 : Forall entry_in_range (hypotheticalChanges Data.initial))
    by constructor.
  destruct (edits_keep_wellformed edits {| ui := Data.initial; trace := [] |}
              Hnd0 Hall0) as [Hnd Hall].
  split; [exact Hnd|]. split; [exact Hall|].
  apply HeuristicBounds.change_at_most_170. exact Hnd.
Qed.

End FormProperties.

(** ** Clicks: suggestions and "Simulate" *)

Module ClickProperties.
Import Data Eff ScoreSimulator SimulatorParts Text Observe JsFacts HandlerFacts
       HeuristicFacts FormFacts.
Local Open Scope Q_scope.

Lemma returned_is_applicable (data : Beneficiary) (sg : Suggestion) :
  In sg (getImprovementSuggestions (Some data)) -> In sg (applicableSuggestions data).
Proof.
  intros H. destruct (SuggestionClaims.suggestions_are_a_prefix data) as [rest ->].
  apply in_or_app. left. exact H.
Qed.

(** Each suggestion earns the full cap of its parameter. *)
Lemma suggestion_gain (data : Beneficiary) (sg : Suggestion) :
  In sg (applicableSuggestions data) ->
  scoreAdjustmentOf data [(parameter sg, value sg)] == gain_cap (parameter sg).
Proof.
  unfold applicableSuggestions. rewrite !in_app_iff.
  intros [H | [H | [H | H]]].
  - destruct (Qeq_bool _ 0) eqn:E in H; [|contradiction].
    destruct H as [<- | []].
    unfold scoreAdjustmentOf, adjust; cbn.
    rewrite (SuggestionClaims.zero_field _ 0 E). reflexivity.
  - destruct (Qeq_bool _ 0) eqn:E in H; [|contradiction].
    destruct H as [<- | []].
    unfold scoreAdjustmentOf, adjust; cbn.
    rewrite (SuggestionClaims.zero_field _ 0 E). reflexivity.
  - destruct (Qltb _ 3) eqn:E in H; [|contradiction].
    destruct H as [<- | []].
    apply ltb_true in E.
    pose proof (num_or_0 (mobile_recharge_frequency data)) as Hn.
    assert (Hold : Js.num_or (mobile_recharge_frequency data) 0 < 4).
    { rewrite Hn. destruct (mobile_recharge_frequency data); cbn in *; lra. }
    unfold scoreAdjustmentOf, adjust; cbn.
    destruct (gtb_true 4 (Js.num_or (mobile_recharge_frequency data) 0)) as [_ G].
    rewrite (G Hold).
    destruct (ltb_false 4 (Js.num_or (mobile_recharge_frequency data) 0)) as [_ L].
    rewrite L by lra. reflexivity.
  - destruct (strictly_zero _) eqn:E in H; [|contradiction].
    destruct H as [<- | []].
    assert (Hold : Js.or_else (employment_type data) (Js.Num 0) = Js.Num 0).
    { destruct (employment_type data) as [| |b|q|s|n]; cbn in E; try discriminate;
        try reflexivity.
      unfold Js.or_else; cbn. now rewrite E. }
    unfold scoreAdjustmentOf, adjust; cbn.
    rewrite Hold. reflexivity.
Qed.

Lemma suggestion_in_range (data : Beneficiary) (sg : Suggestion) :
  In sg (applicableSuggestions data) ->
  entry_in_range (parameter sg, inject_Z (parseInt (value sg)))
  /\ inject_Z (parseInt (value sg)) = value sg
  /\ 15 <= gain_cap (parameter sg).
Proof.
  unfold applicableSuggestions. rewrite !in_app_iff.
  intros [H | [H | [H | H]]];
    match type of H with
    | In _ (if ?b then _ else _) => destruct b; [|contradiction]
    end;
    destruct H as [<- | []];
    (split; [|split; [reflexivity | vm_compute; discriminate]]);
    (split; [intros E; try discriminate E; split; vm_compute; discriminate
            | split; intros E; discriminate E]).
Qed.

(** X10.  A click on any suggestion shown passes the checks of the form and
    stores the suggested value; and the suggested change, simulated alone by
    the local heuristic, earns the largest increment the heuristic has for
    that parameter, at least 15 points. *)
Theorem clicking_a_suggestion_improves :
  forall (data : Beneficiary) (sg : Suggestion) (s : SimState),
    In sg (getImprovementSuggestions (Some data)) ->
    let w := run (applySuggestion sg) s in
    error (ui w) = None
    /\ change_of (parameter sg) (hypotheticalChanges (ui w)) = Some (value sg)
    /\ scoreAdjustmentOf data [(parameter sg, value sg)] == gain_cap (parameter sg)
    /\ 15 <= scoreAdjustmentOf data [(parameter sg, value sg)].
Proof.
  intros data sg s Hin w. apply returned_is_applicable in Hin.
  destruct (suggestion_in_range data sg Hin) as (Hr & Hv & Hc).
  pose proof (suggestion_gain data sg Hin) as Hg.
  unfold w, applySuggestion. rewrite (edit_accepted s _ _ Hr).
  cbn [ui error hypotheticalChanges].
  split; [reflexivity|]. split; [|split; [exact Hg | now rewrite Hg]].
  rewrite change_of_set_same. now rewrite Hv.
Qed.

Lemma clicking_a_suggestion_improves_witness :
  let w := run (applySuggestion suggestBills) Data.initial in
  In suggestBills (getImprovementSuggestions (Some Samples.struggling))
  /\ error (ui w) = None
  /\ hypotheticalChanges (ui w) = [("electricity_bill_paid_on_time", 1)].
Proof.
  assert (H : In suggestBills (getImprovementSuggestions (Some Samples.struggling)))
    by (right; left; reflexivity).
  destruct (clicking_a_suggestion_improves Samples.struggling suggestBills
              Data.initial H) as (He & _).
  split; [exact H|]. split; [exact He | reflexivity].
Defined.


(** Without data, a click only sets the error. *)
Lemma simulate_without_data (s : SimState) (cs : option Q) (net : Outcome) :
  simulate s None cs net =
  {| ui := {| hypotheticalChanges := hypotheticalChanges s;
              projectedScore := projectedScore s;
              scoreChange := scoreChange s;
              explanationText := explanationText s;
              loading := loading s;
              error := Some no_changes_message;
              chartData := chartData s |};
     trace := [] |}.
Proof. unfold simulate, run, handleSimulate. cbn. reflexivity. Qed.

Ltac click_done :=
  repeat match goal with
         | |- _ /\ _ => split
         | |- _ = _ => reflexivity
         | |- _ = None -> _ => intros _; eexists; split; reflexivity
         | |- _ = None -> _ => intros F; discriminate F
         | |- _ <> None -> _ => intros F; first [reflexivity | exfalso; apply F; reflexivity]
         end.

(** The ways a click with data and changes can end. *)
Lemma click_cases (s : SimState) (data : Beneficiary) (cs : option Q) (net : Outcome) :
  hypotheticalChanges s <> [] ->
  exists (shown : SimState) (t : list Event),
    simulate s (Some data) cs net = {| ui := shown; trace := t |}
    /\ Observe.requests {| ui := shown; trace := t |}
       = (if Api.dispatched net
          then [ {| current_data := prepareDataForBackend data;
                    hypothetical_changes := prepareChanges (hypotheticalChanges s) |} ]
          else [])
    /\ hypotheticalChanges shown = hypotheticalChanges s
    /\ loading shown = false
    /\ (error shown = None ->
        exists p, projectedScore shown = Some p /\ chartData shown = chartOf cs p)
    /\ (error shown <> None -> projectedScore shown = projectedScore s).
Proof.
  intros Hne. destruct net as [status res | e].
  - rewrite (simulate_answered s data cs Hne status res).
    eexists; eexists; split; [reflexivity|]. cbn. click_done.
  - destruct (isConnectionIssue (Api.failure_message e)) eqn:He.
    + rewrite (simulate_unreachable s data cs Hne e He).
      eexists; eexists; split; [reflexivity|]. destruct e; cbn; click_done.
    + rewrite (simulate_fallback s data cs Hne e He).
      eexists; eexists; split; [reflexivity|]. destruct e; cbn; click_done.
Qed.



(** X12.  A click on "Simulate" never edits the change set, and it always
    leaves feedback: either an error message, or, when there is no error, a
    projected score together with the two-point chart from the current score
    to it.  When a request was sent the spinner is off at the end. *)
Theorem click_gives_feedback_and_keeps_changes :
  forall (s : SimState) (currentData : option Beneficiary) (cs : option Q)
         (net : Outcome),
    let w := simulate s currentData cs net in
    hypotheticalChanges (ui w) = hypotheticalChanges s
    /\ (error (ui w) = None ->
        exists p, projectedScore (ui w) = Some p /\ chartData (ui w) = chartOf cs p)
    /\ (error (ui w) <> None -> projectedScore (ui w) = projectedScore s)
    /\ (requests w <> [] -> loading (ui w) = false).
Proof.
  intros s currentData cs net w. unfold w.
  destruct currentData as [data|].
  2:{ rewrite simulate_without_data. cbn. split; [reflexivity|].
      split; [intros F; discriminate F|]. split; [reflexivity|].
      intros F. exfalso. apply F. reflexivity. }
  destruct (hypotheticalChanges s) as [|c l] eqn:Hc.
  - rewrite (simulate_empty s (Some data) cs net Hc). cbn. split; [congruence|].
    split; [intros F; discriminate F|]. split; [reflexivity|].
    intros F. exfalso. apply F. reflexivity.
  - assert (Hne : hypotheticalChanges s <> []) by congruence.
    destruct (click_cases s data cs net Hne)
      as (shown & t & -> & _ & Hk & Hl & Hok & Herr).
    cbn [ui]. rewrite Hk, Hc.
    split; [reflexivity|]. split; [exact Hok|]. split; [exact Herr|].
    intros _. exact Hl.
Qed.


End ClickProperties.

(** ** RiskMatrix.js: parsing, fallbacks and the cells drawn *)

Module MatrixMore.
Import RiskMatrix RiskMatrixView Text TextFacts.
Local Open Scope Q_scope.

(** The separator cannot start at a character of dash-free text. *)
Lemma no_separator_here (c : ascii) (s t : string) :
  lacks "-" (String c s) = true ->
  (s = "" -> String.prefix "- " t = false) ->
  String.prefix " - " (String c (s ++ t)) = false.
Proof.
  intros H Ht. apply lacks_cons in H. destruct H as [_ Hs].
  cbn [String.prefix]. destruct (Ascii.ascii_dec " " c) as [_ | _]; [|reflexivity].
  destruct s as [|c' s'].
  - apply Ht. reflexivity.
  - apply lacks_cons in Hs. destruct Hs as [Hc' _].
    change ((String c' s' ++ t)%string) with (String c' (s' ++ t)).
    apply prefix_head. exact Hc'.
Qed.

(** Dash-free text is one part. *)
Lemma split_plain (n : string) :
  lacks "-" n = true ->
  forall piece, Js.split_from " - " 0 piece n = [(piece ++ n)%string].
Proof.
  induction n as [|c n IH]; intros H piece.
  - cbn. now rewrite append_nil_r.
  - cbn [Js.split_from].
    pose proof (no_separator_here c n "" H (fun _ => eq_refl)) as Hp.
    rewrite append_nil_r in Hp. rewrite Hp.
    apply lacks_cons in H. destruct H as [_ Hn].
    rewrite (IH Hn). now rewrite append_assoc.
Qed.

(** Two dash-free texts around the separator are two parts. *)
Lemma split_pair (r n : string) :
  lacks "-" r = true -> lacks "-" n = true ->
  forall piece,
    Js.split_from " - " 0 piece (r ++ " - " ++ n) = [(piece ++ r)%string; n].
Proof.
  intros Hr Hn. induction r as [|c r IH]; intros piece.
  - assert (Hsep : String.prefix " - " (String " " (String "-" (String " " n))) = true)
      by (destruct n; reflexivity).
    cbn [String.append Js.split_from]. rewrite Hsep.
    cbn [String.length Nat.sub].
    rewrite (split_plain n Hn ""). now rewrite append_nil_r.
  - change ((String c r ++ " - " ++ n)%string) with (String c (r ++ " - " ++ n)).
    cbn [Js.split_from].
    rewrite (no_separator_here c r (" - " ++ n) Hr (fun _ => eq_refl)).
    apply lacks_cons in Hr. destruct Hr as [_ Hr].
    rewrite (IH Hr). now rewrite append_assoc.
Qed.

Lemma nonempty_eqb (s : string) : s <> "" -> (s =? "")%string = false.
Proof. intros H. now apply String.eqb_neq. Qed.

(** X14.  Parsing undoes the composition of a category string: for every
    non-empty risk text and need text without a dash, the string
    "risk - need" parses back to exactly that pair. *)
Theorem category_string_round_trip :
  forall r n : string,
    r <> "" -> n <> "" ->
    lacks "-" r = true -> lacks "-" n = true ->
    parseRiskCategory (Some (category_string r n)) = (r, n).
Proof.
  intros r n Hr Hn Lr Ln. unfold parseRiskCategory, category_string.
  assert (Hc : ((r ++ " - " ++ n) =? "")%string = false).
  { apply nonempty_eqb. destruct r; [contradiction | discriminate]. }
  rewrite Hc. unfold Js.split. rewrite (split_pair r n Lr Ln "").
  unfold part_or_unknown; cbn [nth_error String.append].
  now rewrite (nonempty_eqb r Hr), (nonempty_eqb n Hn).
Qed.

Lemma category_string_round_trip_witness :
  parseRiskCategory (Some (category_string "Medium Risk" "High Need"))
  = ("Medium Risk", "High Need").
Proof.
  apply category_string_round_trip; [discriminate | discriminate | reflexivity | reflexivity].
Defined.

(** X15.  A category text without the separator, such as the snake-case
    values of the database enum, has no need part: the need reads "Unknown",
    no cell of the table is found, and the recommendation is the one the
    score alone gives. *)
Theorem category_without_separator_falls_back_to_score :
  forall (c : string) (score : option Q),
    c <> "" -> lacks "-" c = true ->
    parseRiskCategory (Some c) = (c, "Unknown")
    /\ currentCategory (Some c) = None
    /\ getRecommendation (Some c) score = getRecommendation None score.
Proof.
  intros c score Hc Lc.
  assert (Hp : parseRiskCategory (Some c) = (c, "Unknown")).
  { unfold parseRiskCategory. rewrite (nonempty_eqb c Hc).
    unfold Js.split. rewrite (split_plain c Lc "").
    unfold part_or_unknown; cbn [nth_error String.append].
    now rewrite (nonempty_eqb c Hc). }
  assert (Hn : currentCategory (Some c) = None).
  { unfold currentCategory. rewrite Hp. cbn.
    repeat rewrite andb_false_r. reflexivity. }
  split; [exact Hp|]. split; [exact Hn|].
  unfold getRecommendation. rewrite Hn. reflexivity.
Qed.

Lemma category_without_separator_falls_back_to_score_witness :
  currentCategory (Some "low_risk_high_need") = None
  /\ getRecommendation (Some "low_risk_high_need") (Some 720)
     = "Excellent creditworthiness - approve loans confidently".
Proof.
  destruct (category_without_separator_falls_back_to_score
              "low_risk_high_need" (Some 720)) as (_ & Hn & Hr);
    [discriminate | reflexivity |].
  split; [exact Hn|]. rewrite Hr. reflexivity.
Defined.

End MatrixMore.

(** ** RiskMatrix.js: which cell is found and which cell is lit *)

Module MatrixCells.
Import RiskMatrix RiskMatrixView.
Local Open Scope Q_scope.

#[local] Arguments String.eqb : simpl never.

(** Settle every comparison of strings from the hypotheses. *)
Ltac eqbs :=
  repeat match goal with
         | |- context [String.eqb ?a ?b] =>
             first [ rewrite (String.eqb_refl a)
                   | rewrite (proj2 (String.eqb_neq a b)) by congruence ]
         end.

(** X16.  The need part alone decides whether the table or the score gives
    the recommendation: with a need of "Low Need" or "High Need" the
    recommendation is one of the table, also for a risk the table does not
    know, which is then treated as "Medium Risk"; with any other need it is
    the text the score alone gives. *)
Theorem need_decides_the_source_of_the_recommendation :
  forall (c : option string) (score : option Q),
    let (r, n) := parseRiskCategory c in
    (In n need_levels ->
     exists cat : Category,
       currentCategory c = Some cat
       /\ In cat matrixCategories
       /\ need cat = n
       /\ risk cat = (if Js.mem r risk_levels then r else "Medium Risk")
       /\ getRecommendation c score = recommendation cat)
    /\ (~ In n need_levels ->
        currentCategory c = None
        /\ getRecommendation c score = getRecommendation None score
        /\ In (getRecommendation c score) score_recommendations).
Proof.
  intros c score.
  unfold getRecommendation, currentCategory.
  destruct (parseRiskCategory c) as [r n].
  split.
  - intros Hn. cbn in Hn.
    destruct Hn as [<- | [<- | []]];
      destruct (String.eqb_spec "Low Risk" r) as [<- | N1];
      try destruct (String.eqb_spec "Medium Risk" r) as [<- | N2];
      try destruct (String.eqb_spec "High Risk" r) as [<- | N3];
      unfold Js.mem, risk_levels; cbn; eqbs; cbn;
      eexists; (split; [reflexivity|]); cbn; intuition.
  - intros Hn. cbn in Hn.
    assert (N1 : ("Low Need" =? n)%string = false)
      by (apply String.eqb_neq; intros <-; apply Hn; auto).
    assert (N2 : ("High Need" =? n)%string = false)
      by (apply String.eqb_neq; intros <-; apply Hn; auto).
    cbn. rewrite N1, N2. repeat rewrite andb_false_r. cbn.
    repeat rewrite andb_false_r. cbn.
    split; [reflexivity|]. split; [reflexivity|].
    destruct (score_at_least score 700); [auto|].
    destruct (score_at_least score 550); auto.
Qed.

Lemma need_decides_the_source_of_the_recommendation_witness :
  In "High Need" need_levels
  /\ getRecommendation (Some "Very Low Risk - High Need") (Some 800)
     = "Conditional approval with guidance".
Proof.
  pose proof (need_decides_the_source_of_the_recommendation
                (Some "Very Low Risk - High Need") (Some 800)) as H.
  change (parseRiskCategory (Some "Very Low Risk - High Need"))
    with ("Very Low Risk", "High Need") in H.
  destruct H as [H _].
  assert (Hn : In "High Need" need_levels) by (right; left; reflexivity).
  destruct (H Hn) as (cat & Hcat & _ & _ & _ & Hrec).
  split; [exact Hn|]. rewrite Hrec.
  change (currentCategory (Some "Very Low Risk - High Need"))
    with (nth_error matrixCategories 4) in Hcat.
  injection Hcat as <-. reflexivity.
Defined.

(** X17.  Of the four cells drawn at most one is lit, and exactly one is lit
    precisely when the risk is one of the three levels and the need one of
    the two: for a risk the table does not know no cell is lit, although a
    category is still found for the chip and the recommendation. *)
Theorem at_most_one_cell_is_lit :
  forall c : option string,
    let (r, n) := parseRiskCategory c in
    (lit (activeCells c) <= 1)%nat
    /\ (lit (activeCells c) = 1%nat <-> In r risk_levels /\ In n need_levels).
Proof.
  intros c.
  unfold activeCells, stableActive, primeActive, monitorActive, highRiskActive,
    isCellActive, lit.
  destruct (parseRiskCategory c) as [r n].
  destruct (String.eqb_spec "Low Risk" r) as [<- | R1];
    try destruct (String.eqb_spec "Medium Risk" r) as [<- | R2];
    try destruct (String.eqb_spec "High Risk" r) as [<- | R3];
    destruct (String.eqb_spec "Low Need" n) as [<- | N1];
    try destruct (String.eqb_spec "High Need" n) as [<- | N2];
    eqbs; cbn;
    (split; [lia|]);
    (split; [intros E; try discriminate E; split; cbn; auto 6
            | intros [Hr Hn]; cbn in Hr, Hn; try reflexivity; exfalso;
              intuition congruence]).
Qed.

Lemma at_most_one_cell_is_lit_witness :
  lit (activeCells (Some "Medium Risk - Low Need")) = 1%nat
  /\ monitorActive (Some "Medium Risk - Low Need") = true.
Proof.
  pose proof (at_most_one_cell_is_lit (Some "Medium Risk - Low Need")) as H.
  change (parseRiskCategory (Some "Medium Risk - Low Need"))
    with ("Medium Risk", "Low Need") in H.
  destruct H as [_ [_ H]].
  split; [|reflexivity].
  apply H. split; cbn; auto.
Defined.

End MatrixCells.

(** ** The dashboard and the gauge *)

Module DisplayFacts.
Import Dashboard.
Local Open Scope Q_scope.

Lemma qleb_false (x y : Q) : Qle_bool x y = false -> y < x.
Proof.
  intros H. apply Qnot_le_lt. intros L. apply Qle_bool_iff in L. congruence.
Qed.

(** Turn every threshold test into the inequality it decides. *)
Ltac thresholds :=
  repeat match goal with
         | |- context [Qle_bool ?k ?s] =>
             let E := fresh "E" in
             destruct (Qle_bool k s) eqn:E;
             [apply Qle_bool_iff in E | apply qleb_false in E]
         end.

(** X18.  The level badge of the dashboard never goes down when the score
    goes up, and the advice shown under it always belongs to the level shown:
    two scores have the same level exactly when they have the same
    advice. *)
Theorem level_is_monotone_and_matches_advice :
  forall s1 s2 : Q,
    (s1 <= s2 ->
     (level_rank (fst (getScoreLevel s1)) <= level_rank (fst (getScoreLevel s2)))%nat)
    /\ (fst (getScoreLevel s1) = fst (getScoreLevel s2)
        <-> getScoreAdvice s1 = getScoreAdvice s2).
Proof.
  intros s1 s2. unfold getScoreLevel, getScoreAdvice, at_least.
  thresholds; cbn; (split; [intros L; first [lia | exfalso; lra] |]);
    split; intros F; first [reflexivity | discriminate F].
Qed.

Lemma level_is_monotone_and_matches_advice_witness :
  620 <= 710
  /\ (level_rank (fst (getScoreLevel 620)) <= level_rank (fst (getScoreLevel 710)))%nat.
Proof.
  assert (H : 620 <= 710) by (vm_compute; discriminate).
  destruct (level_is_monotone_and_matches_advice 620 710) as [Hm _].
  exact (conj H (Hm H)).
Defined.

(** X19.  With a score range that is not empty, the filled part of the gauge
    is a percentage between 0 and 100 and the two parts add up to 100; the
    fill is 0 for every score at or below the minimum and 100 for every score
    at or above the maximum, and it never goes down when the score goes
    up. *)
Theorem gauge_fill_is_a_percentage :
  forall score maxScore minScore : Q,
    minScore < maxScore ->
    let fill := ScoreGauge.gaugeFillPercentage score maxScore minScore in
    0 <= fill <= 100
    /\ fill + ScoreGauge.gaugeEmptyPercentage score maxScore minScore == 100
    /\ (score <= minScore -> fill == 0)
    /\ (maxScore <= score -> fill == 100)
    /\ (forall higher : Q,
          score <= higher ->
          fill <= ScoreGauge.gaugeFillPercentage higher maxScore minScore).
Proof.
  intros score maxScore minScore Hr fill.
  unfold fill, ScoreGauge.gaugeEmptyPercentage, ScoreGauge.gaugeFillPercentage,
    ScoreGauge.normalizedScore.
  set (d := maxScore - minScore).
  assert (Hd : 0 < d) by (unfold d; lra).
  set (q := (score - minScore) / d).
  assert (Hlow : score <= minScore -> q <= 0).
  { intros H. unfold q. apply Qle_shift_div_r; [exact Hd | lra]. }
  assert (Hover : maxScore <= score -> 1 <= q).
  { intros H. unfold q. apply Qle_shift_div_l; [exact Hd | unfold d; lra]. }
  split; [|split; [ring|split; [|split]]].
  - split.
    + apply Q.min_glb; [lra | apply Q.le_max_l].
    + apply Q.le_min_l.
  - intros H. specialize (Hlow H).
    rewrite (Q.max_l 0 (q * 100)) by lra.
    apply Q.min_r. lra.
  - intros H. specialize (Hover H).
    rewrite (Q.max_r 0 (q * 100)) by lra.
    apply Q.min_l. lra.
  - intros higher Hh.
    apply Q.min_le_compat_l. apply Q.max_le_compat_l.
    assert (Hq : q <= (higher - minScore) / d).
    { unfold q, Qdiv. apply Qmult_le_compat_r; [lra|].
      apply Qlt_le_weak. apply Qinv_lt_0_compat. exact Hd. }
    lra.
Qed.

Lemma gauge_fill_is_a_percentage_witness :
  ScoreGauge.defaultMin < ScoreGauge.defaultMax
  /\ ScoreGauge.gaugeFillPercentage 600 ScoreGauge.defaultMax ScoreGauge.defaultMin
     + ScoreGauge.gaugeEmptyPercentage 600 ScoreGauge.defaultMax ScoreGauge.defaultMin
     == 100.
Proof.
  assert (H : ScoreGauge.defaultMin < ScoreGauge.defaultMax) by reflexivity.
  destruct (gauge_fill_is_a_percentage 600 _ _ H) as (_ & Hs & _).
  exact (conj H Hs).
Defined.

(** X20.  The label and the colour of the gauge change at the same scores:
    two scores carry the same label exactly when they are drawn in the same
    colour. *)
Theorem gauge_label_matches_colour :
  forall s1 s2 : Q,
    ScoreGauge.getScoreLabel s1 = ScoreGauge.getScoreLabel s2
    <-> ScoreGauge.getScoreColor s1 = ScoreGauge.getScoreColor s2.
Proof.
  intros s1 s2. unfold ScoreGauge.getScoreLabel, ScoreGauge.getScoreColor.
  repeat match goal with
         | |- context [Qle_bool ?k ?s] => destruct (Qle_bool k s)
         end;
    split; intros E; first [reflexivity | discriminate E].
Qed.

End DisplayFacts.

(** ** InstaLoanEligibility.js *)

Module LoanFacts.
Import Data InstaLoan DisplayFacts.
Local Open Scope Q_scope.

Ltac each_branch :=
  repeat match goal with
         | |- context [if ?b then _ else _] => destruct b
         end.

(** What each factor adds. *)
Lemma byScore_range (s : Q) (t : Tally) :
  12 <= t_rate t <= 18 ->
  t_score t + 10 <= t_score (byScore s t) <= t_score t + 40
  /\ 12 <= t_rate (byScore s t) <= 18.
Proof.
  intros H. unfold byScore. each_branch; cbn [t_score t_rate]; lra.
Qed.

Lemma byEmployment_range (e : Js.value) (m : Q) (t : Tally) :
  t_score t + 5 <= t_score (byEmployment e m t) <= t_score t + 25
  /\ t_rate (byEmployment e m t) = t_rate t.
Proof.
  unfold byEmployment. each_branch; cbn [t_score t_rate]; split; try reflexivity; lra.
Qed.

Lemma byIncome_range (m : Q) (t : Tally) :
  t_score t + 5 <= t_score (byIncome m t) <= t_score t + 20
  /\ t_rate (byIncome m t) = t_rate t.
Proof.
  unfold byIncome. each_branch; cbn [t_score t_rate]; split; try reflexivity; lra.
Qed.

Lemma byPayments_range (l b : option Q) (t : Tally) :
  12 <= t_rate t ->
  t_score t + 5 <= t_score (byPayments l b t) <= t_score t + 15
  /\ 10 <= t_rate (byPayments l b t) <= t_rate t.
Proof.
  intros H. unfold byPayments.
  each_branch; cbn [t_score t_rate]; (split; [lra|]).
  - split; [apply Q.le_max_r | apply Q.max_lub; lra].
  - split; [eapply Qle_trans; [|apply Q.le_max_r]; lra | apply Q.max_lub; lra].
  - lra.
Qed.

(** The points of the four factors add up to between 25 and 100, and the
    rate ends between 10 and 18. *)
Lemma tally_bounds (data : Beneficiary) (score : Q) :
  25 <= t_score (tally data score) <= 100
  /\ 10 <= t_rate (tally data score) <= 18.
Proof.
  unfold tally.
  set (m := Js.num_nullish (monthly_income data) 0).
  assert (H0 : 12 <= t_rate start <= 18) by (cbn; lra).
  destruct (byScore_range score start H0) as [S1 R1].
  change (t_score start) with 0 in S1.
  set (t1 := byScore score start) in *.
  destruct (byEmployment_range (employment_type data) m t1) as [S2 R2].
  set (t2 := byEmployment (employment_type data) m t1) in *.
  destruct (byIncome_range m t2) as [S3 R3].
  set (t3 := byIncome m t2) in *.
  assert (H3 : 12 <= t_rate t3) by (rewrite R3, R2; lra).
  destruct (byPayments_range (loan_repayment_status data)
              (electricity_bill_paid_on_time data) t3 H3) as [S4 R4].
  rewrite R3, R2 in R4. lra.
Qed.

(** Every factor treats two tallies alike: the better one stays better. *)
Lemma byScore_mono (s1 s2 : Q) :
  s1 <= s2 ->
  t_score (byScore s1 start) <= t_score (byScore s2 start)
  /\ t_max (byScore s1 start) <= t_max (byScore s2 start)
  /\ t_rate (byScore s2 start) <= t_rate (byScore s1 start).
Proof.
  intros H. unfold byScore, start.
  thresholds; cbn [t_score t_max t_rate];
    first [ exfalso; lra
          | split; [|split]; vm_compute; discriminate ].
Qed.

Lemma byEmployment_mono (e : Js.value) (m : Q) (t1 t2 : Tally) :
  t_score t1 <= t_score t2 /\ t_max t1 <= t_max t2 /\ t_rate t2 <= t_rate t1 ->
  t_score (byEmployment e m t1) <= t_score (byEmployment e m t2)
  /\ t_max (byEmployment e m t1) <= t_max (byEmployment e m t2)
  /\ t_rate (byEmployment e m t2) <= t_rate (byEmployment e m t1).
Proof.
  intros (H1 & H2 & H3). unfold byEmployment.
  each_branch; cbn [t_score t_max t_rate]; repeat split; lra.
Qed.

Lemma byIncome_mono (m : Q) (t1 t2 : Tally) :
  t_score t1 <= t_score t2 /\ t_max t1 <= t_max t2 /\ t_rate t2 <= t_rate t1 ->
  t_score (byIncome m t1) <= t_score (byIncome m t2)
  /\ t_max (byIncome m t1) <= t_max (byIncome m t2)
  /\ t_rate (byIncome m t2) <= t_rate (byIncome m t1).
Proof.
  intros (H1 & H2 & H3). unfold byIncome.
  each_branch; cbn [t_score t_max t_rate]; repeat split; lra.
Qed.

Lemma byPayments_mono (l b : option Q) (t1 t2 : Tally) :
  t_score t1 <= t_score t2 /\ t_max t1 <= t_max t2 /\ t_rate t2 <= t_rate t1 ->
  t_score (byPayments l b t1) <= t_score (byPayments l b t2)
  /\ t_max (byPayments l b t1) <= t_max (byPayments l b t2)
  /\ t_rate (byPayments l b t2) <= t_rate (byPayments l b t1).
Proof.
  intros (H1 & H2 & H3). unfold byPayments.
  each_branch; cbn [t_score t_max t_rate];
    (split; [lra | split; [lra|]]);
    first [ lra | apply Q.max_le_compat_r; lra ].
Qed.

Lemma tally_mono (data : Beneficiary) (s1 s2 : Q) :
  s1 <= s2 ->
  t_score (tally data s1) <= t_score (tally data s2)
  /\ t_max (tally data s1) <= t_max (tally data s2)
  /\ t_rate (tally data s2) <= t_rate (tally data s1).
Proof.
  intros H. unfold tally.
  apply byPayments_mono, byIncome_mono, byEmployment_mono, byScore_mono. exact H.
Qed.

(** The status as the function settles it: the decision on the points, taken
    down from approved to conditional when the amount exceeds the limit. *)
Lemma eligibility_fields (fmt : Q -> string) (data : Beneficiary) (sc amount : Q)
    (months : positive) :
  Qeq_bool sc 0 = false ->
  exists r : Eligibility,
    calculateEligibility fmt (Some data) (Some sc) amount months = Some r
    /\ eligibilityScore r = t_score (tally data sc)
    /\ interestRate r = t_rate (tally data sc)
    /\ maxLoanAmount r = Qmin (t_max (tally data sc)) 500000
    /\ requestedAmount r = amount
    /\ status r
       = (if Qle_bool 80 (t_score (tally data sc)) then
            if Qle_bool amount (t_max (tally data sc)) then "approved"
            else "conditional"
          else if Qle_bool 60 (t_score (tally data sc)) then "conditional"
          else "rejected")
    /\ processingTime r
       = (if status r =? "approved" then "24 hours"
          else if status r =? "conditional" then "3-5 days" else "N/A")%string.
Proof.
  intros H. unfold calculateEligibility. rewrite H. unfold decide.
  set (t := tally data sc).
  destruct (Qle_bool 80 (t_score t)); [|destruct (Qle_bool 60 (t_score t))];
    destruct (Qle_bool amount (t_max t));
    eexists; (split; [reflexivity|]); cbn; repeat split.
Qed.

Lemma nonzero_score (sc : Q) : ~ sc == 0 -> Qeq_bool sc 0 = false.
Proof.
  intros H. destruct (Qeq_bool sc 0) eqn:E; [|reflexivity].
  apply Qeq_bool_iff in E. contradiction.
Qed.

(** X21.  Without beneficiary data, or without a score or with the score 0,
    no eligibility is computed; otherwise the result has between 25 and 100
    points, an interest rate between 10 and 18 percent, a maximum amount of
    at most 500000, one of the three statuses, and the processing time that
    goes with the status. *)
Theorem eligibility_is_bounded :
  forall (fmt : Q -> string) (currentData : option Beneficiary) (score : option Q)
         (amount : Q) (months : positive),
    match calculateEligibility fmt currentData score amount months with
    | None => currentData = None \/ Observe.reads_as_zero score
    | Some r =>
        currentData <> None
        /\ ~ Observe.reads_as_zero score
        /\ 25 <= eligibilityScore r <= 100
        /\ 10 <= interestRate r <= 18
        /\ maxLoanAmount r <= 500000
        /\ In (status r) ["approved"; "conditional"; "rejected"]
        /\ processingTime r
           = (if status r =? "approved" then "24 hours"
              else if status r =? "conditional" then "3-5 days" else "N/A")%string
    end.
Proof.
  intros fmt currentData score amount months.
  destruct currentData as [data|]; [|left; reflexivity].
  destruct score as [sc|]; [|right; exact I].
  destruct (Qeq_bool sc 0) eqn:Hz.
  - unfold calculateEligibility. rewrite Hz. right. cbn. now apply Qeq_bool_iff.
  - destruct (eligibility_fields fmt data sc amount months Hz)
      as (r & -> & Hs & Hr & Hm & _ & Hst & Hp).
    destruct (tally_bounds data sc) as [Bs Br].
    split; [discriminate|]. split.
    { cbn. intros E. apply Qeq_bool_iff in E. congruence. }
    rewrite Hs, Hr, Hm. split; [exact Bs|]. split; [exact Br|].
    split; [apply Q.le_min_r|]. split; [|exact Hp].
    rewrite Hst.
    destruct (Qle_bool 80 _); [destruct (Qle_bool amount _)|destruct (Qle_bool 60 _)];
      cbn; auto.
Qed.

Lemma byScore_low (s : Q) (t : Tally) :
  s < 500 -> t_score (byScore s t) == t_score t + 10.
Proof.
  intros H. unfold byScore. thresholds; cbn [t_score]; first [exfalso; lra | reflexivity].
Qed.

(** X22.  How the status is settled: a request is approved exactly when the
    points reach 80 and the amount asked for is within the limit the factors
    add up to; it is rejected exactly when the points stay below 60.  An
    approved amount of at most 500000 is within the maximum returned, and a
    credit score below 500 is never approved. *)
Theorem approval_rules :
  forall (fmt : Q -> string) (data : Beneficiary) (sc amount : Q) (months : positive)
         (r : Eligibility),
    calculateEligibility fmt (Some data) (Some sc) amount months = Some r ->
    (status r = "approved"
     <-> 80 <= eligibilityScore r /\ amount <= t_max (tally data sc))
    /\ (status r = "rejected" <-> eligibilityScore r < 60)
    /\ (status r = "approved" -> amount <= 500000 -> amount <= maxLoanAmount r)
    /\ (sc < 500 -> status r <> "approved").
Proof.
  intros fmt data sc amount months r Hcalc.
  assert (Hz : Qeq_bool sc 0 = false).
  { destruct (Qeq_bool sc 0) eqn:E; [|reflexivity].
    unfold calculateEligibility in Hcalc. rewrite E in Hcalc. discriminate Hcalc. }
  destruct (eligibility_fields fmt data sc amount months Hz)
    as (r' & Hr' & Hs & _ & Hm & _ & Hst & _).
  rewrite Hcalc in Hr'. injection Hr' as <-.
  assert (Hlow : sc < 500 -> t_score (tally data sc) <= 70).
  { intros L. unfold tally.
    set (m := Js.num_nullish (monthly_income data) 0).
    pose proof (byScore_low sc start L) as S1. change (t_score start) with 0 in S1.
    set (t1 := byScore sc start) in *.
    destruct (byEmployment_range (employment_type data) m t1) as [S2 R2].
    set (t2 := byEmployment (employment_type data) m t1) in *.
    destruct (byIncome_range m t2) as [S3 R3].
    set (t3 := byIncome m t2) in *.
    assert (H0 : 12 <= t_rate start <= 18) by (cbn; lra).
    destruct (byScore_range sc start H0) as [_ R1]. fold t1 in R1.
    assert (H3 : 12 <= t_rate t3) by (rewrite R3, R2; lra).
    destruct (byPayments_range (loan_repayment_status data)
                (electricity_bill_paid_on_time data) t3 H3) as [S4 _].
    lra. }
  rewrite Hst, Hs, Hm.
  set (t := tally data sc) in *.
  destruct (Qle_bool 80 (t_score t)) eqn:E80;
    [apply Qle_bool_iff in E80 | apply qleb_false in E80];
    [destruct (Qle_bool amount (t_max t)) eqn:Ea;
       [apply Qle_bool_iff in Ea | apply qleb_false in Ea]
    |destruct (Qle_bool 60 (t_score t)) eqn:E60;
       [apply Qle_bool_iff in E60 | apply qleb_false in E60]];
    (split; [split; [intros F; first [discriminate F | split; assumption]
                    | intros [F1 F2]; first [reflexivity | exfalso; lra]]|]);
    (split; [split; [intros F; first [discriminate F | assumption | lra]
                    | intros F; first [reflexivity | exfalso; lra]]|]);
    (split; [intros F L; first [discriminate F | apply Q.min_glb; assumption]|]);
    intros L F; first [discriminate F | specialize (Hlow L); lra].
Qed.

Lemma approval_rules_witness :
  let r := {| status := "rejected"; eligibilityScore := 0 + 30 + 5 + 5 + 5;
              maxLoanAmount := Qmin (0 + 150000) 500000; interestRate := 15;
              emi := 4513; requestedAmount := 50000; tenure := 12;
              reasons := ["Employment status needs verification";
                          "Income below minimum threshold";
                          "Payment history needs improvement"];
              benefits := ["Standard interest rates"];
              processingTime := "N/A" |} in
  calculateEligibility plainDigits (Some Samples.struggling) (Some 650) 50000 12
  = Some r
  /\ eligibilityScore r < 60.
Proof.
  intros r.
  assert (H : calculateEligibility plainDigits (Some Samples.struggling) (Some 650)
                50000 12 = Some r) by (vm_compute; reflexivity).
  destruct (approval_rules plainDigits Samples.struggling 650 50000 12 r H)
    as (_ & [Hrej _] & _).
  exact (conj H (Hrej eq_refl)).
Defined.

Lemma computed_score_nonzero (fmt : Q -> string) (data : Beneficiary) (sc amount : Q)
    (months : positive) (r : Eligibility) :
  calculateEligibility fmt (Some data) (Some sc) amount months = Some r ->
  Qeq_bool sc 0 = false.
Proof.
  intros H. destruct (Qeq_bool sc 0) eqn:E; [|reflexivity].
  unfold calculateEligibility in H. rewrite E in H. discriminate H.
Qed.

(** X23.  A higher credit score never hurts: for the same beneficiary, amount
    and tenure, the result for the higher score has no fewer points, no
    higher interest rate, no lower maximum amount and no worse status. *)
Theorem higher_score_never_hurts :
  forall (fmt : Q -> string) (data : Beneficiary) (s1 s2 amount : Q)
         (months : positive) (r1 r2 : Eligibility),
    s1 <= s2 ->
    calculateEligibility fmt (Some data) (Some s1) amount months = Some r1 ->
    calculateEligibility fmt (Some data) (Some s2) amount months = Some r2 ->
    eligibilityScore r1 <= eligibilityScore r2
    /\ interestRate r2 <= interestRate r1
    /\ maxLoanAmount r1 <= maxLoanAmount r2
    /\ (status_rank (status r1) <= status_rank (status r2))%nat.
Proof.
  intros fmt data s1 s2 amount months r1 r2 Hle H1 H2.
  pose proof (computed_score_nonzero _ _ _ _ _ _ H1) as Z1.
  pose proof (computed_score_nonzero _ _ _ _ _ _ H2) as Z2.
  destruct (eligibility_fields fmt data s1 amount months Z1)
    as (r1' & E1 & Hs1 & Hr1 & Hm1 & _ & Hst1 & _).
  destruct (eligibility_fields fmt data s2 amount months Z2)
    as (r2' & E2 & Hs2 & Hr2 & Hm2 & _ & Hst2 & _).
  rewrite H1 in E1. injection E1 as <-. rewrite H2 in E2. injection E2 as <-.
  destruct (tally_mono data s1 s2 Hle) as (Ms & Mm & Mr).
  rewrite Hs1, Hs2, Hr1, Hr2, Hm1, Hm2, Hst1, Hst2.
  set (t1 := tally data s1) in *. set (t2 := tally data s2) in *.
  split; [exact Ms|]. split; [exact Mr|].
  split; [apply Q.min_le_compat_r; exact Mm|].
  thresholds; cbn; first [lia | exfalso; lra].
Qed.

Lemma higher_score_never_hurts_witness :
  480 <= 720
  /\ exists r1 r2 : Eligibility,
       calculateEligibility plainDigits (Some Samples.struggling) (Some 480) 50000 12
       = Some r1
       /\ calculateEligibility plainDigits (Some Samples.struggling) (Some 720) 50000 12
          = Some r2
       /\ interestRate r2 <= interestRate r1.
Proof.
  assert (H : 480 <= 720) by (vm_compute; discriminate).
  split; [exact H|].
  destruct (calculateEligibility plainDigits (Some Samples.struggling) (Some 480)
              50000 12) as [r1|] eqn:H1; [|vm_compute in H1; discriminate H1].
  destruct (calculateEligibility plainDigits (Some Samples.struggling) (Some 720)
              50000 12) as [r2|] eqn:H2; [|vm_compute in H2; discriminate H2].
  exists r1, r2. split; [reflexivity|]. split; [reflexivity|].
  destruct (higher_score_never_hurts plainDigits Samples.struggling 480 720 50000 12
              r1 r2 H H1 H2) as (_ & Hr & _).
  exact Hr.
Defined.

End LoanFacts.
